(** * Data validation and drift normalisation of PredictiveAnalytics

    A shallow embedding of
    [PredictiveAnalytics/components/data_validation.py] (class
    [DataValidation]) together with the properties its specification
    states about it.

    The Python code works on dynamically typed values obtained from
    [json.load]; [Py] models that universe, the exceptions the code can
    raise, and the builtins the class uses.  [DataValidation] then
    follows the methods of the class one by one. *)

From Stdlib Require Import ZArith List String Ascii Bool Lia Floats.
From stdpp Require Import base gmap strings list.

Local Open Scope string_scope.
Local Open Scope Z_scope.

Set Warnings "-register-all".

(** ** Python values, exceptions and builtins *)

Module Py.

(** What [json.load] produces, which is also what the normaliser
    returns: [None], booleans, integers, IEEE 754 binary64 floats, text,
    lists, and dictionaries with text keys.  A dictionary keeps its
    insertion order; a lookup finds the first binding of a key. *)
Inductive value : Type :=
| VNone
| VBool (b : bool)
| VInt (z : Z)
| VFloat (f : float)
| VStr (s : string)
| VList (l : list value)
| VDict (d : list (string * value)).

(** The exceptions that can leave the code.  [OSError] stands for any
    failure of an external collaborator (file system, CSV reader, drift
    engine); [PredictiveAnalyticsException] is the wrapper every method
    of the class raises around what it catches. *)
Inductive exn : Type :=
| AttributeError
| TypeError
| ValueError
| OverflowError
| ZeroDivisionError
| KeyError (key : string)
| OSError (what : string)
| PredictiveAnalyticsException (cause : exn).

Inductive result (A : Type) : Type :=
| Ok (a : A)
| Raise (e : exn).
Arguments Ok {A} a.
Arguments Raise {A} e.

#[global] Instance result_ret : MRet result := fun _ a => Ok a.
#[global] Instance result_bind : MBind result := fun _ _ f r =>
  match r with
  | Ok a => f a
  | Raise e => Raise e
  end.
#[global] Instance result_fmap : FMap result := fun _ _ f r =>
  match r with
  | Ok a => Ok (f a)
  | Raise e => Raise e
  end.

(** *** Dictionaries *)

Fixpoint dict_lookup (k : string) (d : list (string * value)) : option value :=
  match d with
  | [] => None
  | (k', v) :: d' => if String.eqb k k' then Some v else dict_lookup k d'
  end.

(** [d.get(k, default)]; only dictionaries have the method. *)
Definition get (v : value) (k : string) (dflt : value) : result value :=
  match v with
  | VDict d => Ok (default dflt (dict_lookup k d))
  | _ => Raise AttributeError
  end.

(** [d[k]] on a dictionary. *)
Definition getitem (v : value) (k : string) : result value :=
  match v with
  | VDict d =>
      match dict_lookup k d with
      | Some x => Ok x
      | None => Raise (KeyError k)
      end
  | _ => Raise TypeError
  end.

(** [for m in v]: the items a [for] loop visits. *)
Definition iter (v : value) : result (list value) :=
  match v with
  | VList l => Ok l
  | VDict d => Ok (map (fun kv => VStr (fst kv)) d)
  | VStr s => Ok (map (fun c => VStr (String c EmptyString)) (list_ascii_of_string s))
  | _ => Raise TypeError
  end.

Definition is_none (v : value) : bool :=
  match v with
  | VNone => true
  | _ => false
  end.

(** *** Text *)

(** [s.endswith(suffix)]: some tail of [s] is [suffix]. *)
Fixpoint str_endswith (s suffix : string) : bool :=
  String.eqb s suffix ||
  match s with
  | EmptyString => false
  | String _ s' => str_endswith s' suffix
  end.

(** [needle in s]: [needle] starts some tail of [s]. *)

Fixpoint str_contains (needle s : string) : bool :=
  String.prefix needle s ||
  match s with
  | EmptyString => false
  | String _ s' => str_contains needle s'
  end.

(** [v.endswith(suffix)]; only text has the method. *)
Definition endswith (v : value) (suffix : string) : result bool :=
  match v with
  | VStr s => Ok (str_endswith s suffix)
  | _ => Raise AttributeError
  end.

(** [needle in v] for a text [needle]: substring of a text, element of
    a list, key of a dictionary. *)
Definition contains (needle : string) (v : value) : result bool :=
  match v with
  | VStr s => Ok (str_contains needle s)
  | VList l =>
      Ok (existsb (fun x => match x with
                            | VStr s => String.eqb needle s
                            | _ => false
                            end) l)
  | VDict d => Ok (existsb (fun kv => String.eqb needle (fst kv)) d)
  | _ => Raise TypeError
  end.

(** *** Numbers *)

(** Truth value of a value in a condition. *)
Definition truthy (v : value) : bool :=
  match v with
  | VNone => false
  | VBool b => b
  | VInt z => negb (z =? 0)
  | VFloat f => negb (PrimFloat.eqb f 0)
  | VStr s => negb (String.eqb s "")
  | VList l => match l with [] => false | _ => true end
  | VDict d => match d with [] => false | _ => true end
  end.

(** [v == 0] and [v != 0]: numbers compare by value, [False] is [0],
    everything else differs from [0]. *)
Definition eq_zero (v : value) : bool :=
  match v with
  | VBool b => negb b
  | VInt z => z =? 0
  | VFloat f => PrimFloat.eqb f 0
  | _ => false
  end.

Definition ne_zero (v : value) : bool := negb (eq_zero v).

(** [a >= b] and [a == b] on floats. *)
Definition float_ge (a b : float) : bool := PrimFloat.leb b a.

(** An integer as the exactly represented number [z * 2^0]; the
    mantissa is not normalised, which the rounding operations of
    [SpecFloat] do themselves. *)
Definition Z2SF (z : Z) : spec_float :=
  match z with
  | Z0 => S754_zero false
  | Zpos p => S754_finite false p 0
  | Zneg p => S754_finite true p 0
  end.

(** A computed float, when finite; a result too large for a float is
    an [OverflowError] wherever an integer is involved. *)
Definition finite_or_overflow (x : spec_float) : result float :=
  match x with
  | S754_infinity _ => Raise OverflowError
  | _ => Ok (SF2Prim x)
  end.

(** [float(z)] for an integer: the nearest float, ties to even. *)
Definition float_of_Z (z : Z) : result float :=
  finite_or_overflow (binary_normalize prec emax z 0 false).

(** [a / b] for two integers: the correctly rounded quotient. *)
Definition int_truediv (a b : Z) : result float :=
  if b =? 0 then Raise ZeroDivisionError
  else finite_or_overflow (SFdiv prec emax (Z2SF a) (Z2SF b)).

(** [a / b] for two floats. *)
Definition float_truediv (a b : float) : result float :=
  if PrimFloat.eqb b 0 then Raise ZeroDivisionError
  else Ok (PrimFloat.div a b).

(** The numeric reading of a value in arithmetic: booleans count as
    the integers 0 and 1. *)
Inductive number : Type :=
| NInt (z : Z)
| NFloat (f : float).

Definition as_number (v : value) : option number :=
  match v with
  | VBool b => Some (NInt (if b then 1 else 0))
  | VInt z => Some (NInt z)
  | VFloat f => Some (NFloat f)
  | _ => None
  end.

(** [a / b] (true division). *)
Definition truediv (a b : value) : result float :=
  match as_number a, as_number b with
  | Some (NInt x), Some (NInt y) => int_truediv x y
  | Some (NInt x), Some (NFloat g) => f ← float_of_Z x; float_truediv f g
  | Some (NFloat f), Some (NInt y) => g ← float_of_Z y; float_truediv f g
  | Some (NFloat f), Some (NFloat g) => float_truediv f g
  | _, _ => Raise TypeError
  end.

(** The integer nearest to [m / 2^k] for [m >= 0], ties to even. *)
Definition round_half_even_shift (m k : Z) : Z :=
  let d := 2 ^ k in
  let q := m / d in
  let r := m mod d in
  match 2 * r ?= d with
  | Lt => q
  | Gt => q + 1
  | Eq => if Z.even q then q else q + 1
  end.

Definition with_sign (s : bool) (n : Z) : Z := if s then - n else n.

(** [round(f)] with one argument: the nearest integer, ties to even. *)
Definition round_float (f : float) : result Z :=
  match Prim2SF f with
  | S754_zero _ => Ok 0
  | S754_nan => Raise ValueError
  | S754_infinity _ => Raise OverflowError
  | S754_finite s m e =>
      Ok (with_sign s (if 0 <=? e then Z.pos m * 2 ^ e
                       else round_half_even_shift (Z.pos m) (- e)))
  end.

(** [int(f)] for a float: truncation towards zero. *)
Definition trunc_float (f : float) : result Z :=
  match Prim2SF f with
  | S754_zero _ => Ok 0
  | S754_nan => Raise ValueError
  | S754_infinity _ => Raise OverflowError
  | S754_finite s m e =>
      Ok (with_sign s (if 0 <=? e then Z.pos m * 2 ^ e
                       else Z.pos m / 2 ^ (- e)))
  end.

(** Reading a number out of text is the work of the interpreter's
    parser; the class never depends on how it is done, so the two
    conversions are taken as given. *)
Record text_conversions : Type := {
  float_of_text : string -> result float;
  int_of_text : string -> result Z
}.

Section Conversions.
Variable conv : text_conversions.

(** [float(v)] *)
Definition to_float (v : value) : result float :=
  match v with
  | VBool b => Ok (if b then 1%float else 0%float)
  | VInt z => float_of_Z z
  | VFloat f => Ok f
  | VStr s => float_of_text conv s
  | _ => Raise TypeError
  end.

(** [int(v)] *)
Definition to_int (v : value) : result Z :=
  match v with
  | VBool b => Ok (if b then 1 else 0)
  | VInt z => Ok z
  | VFloat f => trunc_float f
  | VStr s => int_of_text conv s
  | _ => Raise TypeError
  end.
End Conversions.

End Py.

(** ** The class [DataValidation] *)

Module DataValidation.
Import Py.

(** A pandas table, as far as the class looks at it: the column labels
    in order, and the rows of cells under them. *)
Record DataFrame : Type := {
  columns : list string;
  rows : list (list value)
}.

(** [df.shape[1]] *)
Definition shape1 (df : DataFrame) : Z := Z.of_nat (length (columns df)).

(** *** Drift report normaliser *)

Definition signature : string := "DriftedColumnsCount".

(** The test of the scanning loop on one metric record [m]:
[[
   cfg_type = m.get("config", {}).get("type", "")
   cfg_type.endswith("DriftedColumnsCount") or
       "DriftedColumnsCount" in m.get("metric_name", "")
]]
    The right operand of [or] is evaluated only when the left one is
    false. *)
Definition is_drifted_columns_metric (m : value) : result bool :=
  config ← get m "config" (VDict []);
  cfg_type ← get config "type" (VStr "");
  by_type ← endswith cfg_type signature;
  if (by_type : bool) then Ok true
  else
    metric_name ← get m "metric_name" (VStr "");
    contains signature metric_name.

(** The loop itself: the first record that passes the test, [None]
    when the loop runs to its end. *)
Fixpoint find_drifted_metric (metrics : list value) : result (option value) :=
  match metrics with
  | [] => Ok None
  | m :: rest =>
      hit ← is_drifted_columns_metric m;
      if (hit : bool) then Ok (Some m) else find_drifted_metric rest
  end.

Section Normalizer.
Variable conv : text_conversions.

(** [parse_evidently_metrics_to_profile_like(report_dict, reference_df)].
    [n_features] is an integer or [None] from the moment it is
    computed, so the final [int(n_features)] changes nothing and is
    not written. *)
Definition parse_evidently_metrics_to_profile_like
    (report_dict : value) (reference_df : option DataFrame) : result value :=
  metrics ← get report_dict "metrics" (VList []);
  records ← iter metrics;
  found ← find_drifted_metric records;
  match (found : option value) with
  | None =>
      let n_features :=
        match reference_df with
        | Some df => VInt (shape1 df)
        | None => VNone
        end in
      Ok (VDict [("n_features", n_features);
                 ("n_drifted_features", VInt 0);
                 ("dataset_drift", VBool false);
                 ("drift_share", VFloat 0);
                 ("drift_count", VInt 0)])
  | Some drifted_metric =>
      value ← get drifted_metric "value" (VDict []);
      count ← get value "count" VNone;
      share ← get value "share" VNone;
      n_features ←
        match reference_df with
        | Some df => Ok (VInt (shape1 df))
        | None =>
            if (if truthy share then ne_zero share else false)
            then
              quotient ← truediv count share;
              n ← round_float quotient;
              Ok (VInt n)
            else Ok VNone
        end;
      config ← get drifted_metric "config" (VDict []);
      configured ← get config "drift_share" VNone;
      let drift_share_threshold :=
        if is_none configured then VFloat 0.5 else configured in
      dataset_drift ←
        (if is_none share then Ok false
         else
           s ← to_float conv share;
           t ← to_float conv drift_share_threshold;
           Ok (float_ge s t));
      n_drifted_features ← (if is_none count then Ok 0 else to_int conv count);
      drift_share ← (if is_none share then Ok 0%float else to_float conv share);
      drift_count ← (if is_none count then Ok 0 else to_int conv count);
      threshold ← to_float conv drift_share_threshold;
      Ok (VDict [("n_features", n_features);
                 ("n_drifted_features", VInt n_drifted_features);
                 ("dataset_drift", VBool dataset_drift);
                 ("drift_share", VFloat drift_share);
                 ("drift_count", VInt drift_count);
                 ("drift_share_threshold", VFloat threshold)])
  end.
End Normalizer.

(** What the statements below read off a report and a summary. *)

(** The metric records the loop visits. *)
Definition metrics_of (report_dict : value) : result (list value) :=
  metrics ← get report_dict "metrics" (VList []);
  iter metrics.

(** The record the loop stops at, if any. *)
Definition drifted_metric_of (report_dict : value) : result (option value) :=
  records ← metrics_of report_dict;
  find_drifted_metric records.

(** [m.get("value", {}).get(k)] *)
Definition value_field (m : value) (k : string) : result value :=
  value ← get m "value" (VDict []);
  get value k VNone.

(** [m.get("config", {}).get(k)] *)
Definition config_field (m : value) (k : string) : result value :=
  config ← get m "config" (VDict []);
  get config k VNone.

(** The entry of a returned dictionary under a key, if there is one. *)
Definition field (summary : value) (k : string) : option value :=
  match summary with
  | VDict d => dict_lookup k d
  | _ => None
  end.

(** *** Schema, configuration and artifacts *)

(** The schema document, as far as the class indexes it:
    [_schema_config["columns"]], [["numerical_columns"]] and
    [["categorical_columns"]]. *)
Record SchemaConfig : Type := {
  schema_columns : list string;
  numerical_columns : list string;
  categorical_columns : list string
}.

Record DataIngestionArtifact : Type := {
  trained_file_path : string;
  test_file_path : string
}.

Record DataValidationConfig : Type := {
  config_drift_report_file_path : string
}.

Record DataValidationArtifact : Type := {
  validation_status : bool;
  message : string;
  drift_report_file_path : string
}.

(** The object [self]. *)
Record DataValidation : Type := {
  data_ingestion_artifact : DataIngestionArtifact;
  data_validation_config : DataValidationConfig;
  schema_config : SchemaConfig
}.

(** *** Effects

    What a method does besides returning: the lines it logs and the
    requests it makes to the drift engine and the file system, in
    order. *)
Inductive event : Type :=
| LogStarting
| LogColumnCount (required actual : nat) (status : bool)
| LogMissingNumerical (missing : list string)
| LogMissingCategorical (missing : list string)
| RunReport (reference current : DataFrame)
| MakeDirs (path : string)
| SaveJson (path : string) (report : value)
| LoadJson (path : string)
| WriteYaml (path : string) (content : value)
| LogDriftSummary (n_drifted n_features share threshold drift : value)
| LogCompleted (artifact : DataValidationArtifact).

(** A computation with effects: its trace and how it ended. *)
Record M (A : Type) : Type := Run {
  trace : list event;
  outcome : result A
}.
Arguments Run {A} trace outcome.
Arguments trace {A} m.
Arguments outcome {A} m.

#[global] Instance M_ret : MRet M := fun _ a => Run [] (Ok a).
#[global] Instance M_bind : MBind M := fun _ _ f m =>
  match outcome m with
  | Ok a => Run (trace m ++ trace (f a)) (outcome (f a))
  | Raise e => Run (trace m) (Raise e)
  end.

Definition emit (e : event) : M unit := Run [e] (Ok tt).
Definition lift {A : Type} (r : result A) : M A := Run [] r.

(** [try: body except Exception as e: raise PredictiveAnalyticsException(e, sys)] *)
Definition wrapped {A : Type} (body : M A) : M A :=
  Run (trace body)
      match outcome body with
      | Ok a => Ok a
      | Raise e => Raise (PredictiveAnalyticsException e)
      end.

(** *** Paths *)

(** [os.path.dirname]: the part before the last slash, without its
    trailing slashes unless it consists of slashes only. *)
Definition is_slash (c : ascii) : bool := Ascii.eqb c "/"%char.

Fixpoint drop_while {A : Type} (p : A -> bool) (l : list A) : list A :=
  match l with
  | [] => []
  | x :: l' => if p x then drop_while p l' else l
  end.

Definition dirname (p : string) : string :=
  let head := drop_while (fun c => negb (is_slash c)) (rev (list_ascii_of_string p)) in
  let stripped := drop_while is_slash head in
  string_of_list_ascii (rev (match stripped with [] => head | _ => stripped end)).

(** [s.replace(old, new)] for a non-empty [old]: every occurrence, left
    to right, none overlapping.  [skip] counts the characters of an
    occurrence still to be passed over. *)
Fixpoint replace_from (old new : string) (skip : nat) (s : string) : string :=
  match s with
  | EmptyString => EmptyString
  | String c s' =>
      match skip with
      | S k => replace_from old new k s'
      | O =>
          if String.prefix old s
          then new +:+ replace_from old new (String.length old - 1) s'
          else String c (replace_from old new O s')
      end
  end.

Definition str_replace (s old new : string) : string := replace_from old new O s.

(** [os.makedirs(path, exist_ok=True)]; the empty path names no
    directory. *)
Definition makedirs (path : string) : M unit :=
  emit (MakeDirs path);;
  if String.eqb path "" then lift (Raise (OSError "makedirs")) else mret tt.

(** Modelled from the spec: [write_yaml_file] of
    [PredictiveAnalytics.utils.main_utils], which is not among the
    sources; it persists the summary at the given path. *)
Definition write_yaml_file (file_path : string) (content : value) : M unit :=
  emit (WriteYaml file_path content).

Section Methods.
(** The interpreter's reading of numbers out of text, [pandas.read_csv],
    and the drift engine: [run_report reference current] is the JSON
    document that [Report.run(...)] renders and [save_json] writes. *)
Variable conv : text_conversions.
Variable read_csv : string -> result DataFrame.
Variable run_report : DataFrame -> DataFrame -> result value.

Variable self : DataValidation.

(** *** Schema validation methods *)

Definition validate_number_of_columns (df : DataFrame) : M bool :=
  wrapped (
    let required_cols := length (schema_columns (schema_config self)) in
    let actual_cols := length (columns df) in
    let status := Nat.eqb required_cols actual_cols in
    emit (LogColumnCount required_cols actual_cols status);;
    mret status).

(** [[col for col in names if col not in set(df.columns)]] *)
Definition missing_from (df : DataFrame) (names : list string) : list string :=
  let df_columns : gset string := list_to_set (columns df) in
  filter (fun col => col ∉ df_columns) names.

Definition nonempty {A : Type} (l : list A) : bool :=
  match l with
  | [] => false
  | _ => true
  end.

Definition is_column_exist (df : DataFrame) : M bool :=
  wrapped (
    let missing_numerical := missing_from df (numerical_columns (schema_config self)) in
    let missing_categorical := missing_from df (categorical_columns (schema_config self)) in
    (if nonempty missing_numerical
     then emit (LogMissingNumerical missing_numerical) else mret tt);;
    (if nonempty missing_categorical
     then emit (LogMissingCategorical missing_categorical) else mret tt);;
    mret (negb (nonempty missing_numerical || nonempty missing_categorical))).

Definition read_data (file_path : string) : M DataFrame :=
  wrapped (lift (read_csv file_path)).

(** *** Drift detection *)

(** The file written by [save_json] is read back by [json.load]
    unchanged. *)
Definition detect_dataset_drift (reference_df current_df : DataFrame) : M bool :=
  wrapped (
    emit (RunReport reference_df current_df);;
    rendered ← lift (run_report reference_df current_df);
    let json_path := config_drift_report_file_path (data_validation_config self) in
    makedirs (dirname json_path);;
    emit (SaveJson json_path rendered);;
    emit (LoadJson json_path);;
    let report_dict := rendered in
    parsed ← lift (parse_evidently_metrics_to_profile_like conv report_dict
                     (Some reference_df));
    n_features ← lift (getitem parsed "n_features");
    n_drifted_features ← lift (getitem parsed "n_drifted_features");
    dataset_drift ← lift (getitem parsed "dataset_drift");
    drift_share ← lift (getitem parsed "drift_share");
    drift_share_threshold ← lift (getitem parsed "drift_share_threshold");
    raw_metrics ← lift (get report_dict "metrics" (VList []));
    let profile_like :=
      VDict [("data_drift",
              VDict [("data",
                      VDict [("metrics",
                              VDict [("n_features", n_features);
                                     ("n_drifted_features", n_drifted_features);
                                     ("dataset_drift", dataset_drift);
                                     ("drift_share", drift_share);
                                     ("drift_share_threshold", drift_share_threshold)])])]);
             ("raw_metrics", raw_metrics)] in
    let yaml_path := str_replace json_path ".json" ".yaml" in
    makedirs (dirname yaml_path);;
    write_yaml_file yaml_path profile_like;;
    emit (LogDriftSummary n_drifted_features n_features drift_share
            drift_share_threshold dataset_drift);;
    mret (truthy dataset_drift)).

(** *** Pipeline orchestration *)

(** [msg] appended to [error_messages] when the check did not pass. *)
Definition append_unless (passed : bool) (error_messages : list string)
    (msg : string) : list string :=
  if negb passed then error_messages ++ [msg] else error_messages.

(** The four checks of [initiate_data_validation], in the order it
    makes them, and the messages they leave. *)
Definition run_schema_checks (train_df test_df : DataFrame) : M (list string) :=
  let error_messages := [] in
  passed ← validate_number_of_columns train_df;
  let error_messages :=
    append_unless passed error_messages "Training data: Column count mismatch." in
  passed ← validate_number_of_columns test_df;
  let error_messages :=
    append_unless passed error_messages "Test data: Column count mismatch." in
  passed ← is_column_exist train_df;
  let error_messages :=
    append_unless passed error_messages "Training data: Missing required columns." in
  passed ← is_column_exist test_df;
  let error_messages :=
    append_unless passed error_messages "Test data: Missing required columns." in
  mret error_messages.

(** [["Drift detected" if drift_status else "Drift not detected"
      if validation_passed else "; ".join(error_messages)]] *)
Definition compose_message (drift_status validation_passed : bool)
    (error_messages : list string) : string :=
  if drift_status then "Drift detected"
  else if validation_passed then "Drift not detected"
  else String.concat "; " error_messages.

Definition initiate_data_validation : M DataValidationArtifact :=
  wrapped (
    emit LogStarting;;
    train_df ← read_data (trained_file_path (data_ingestion_artifact self));
    test_df ← read_data (test_file_path (data_ingestion_artifact self));
    error_messages ← run_schema_checks train_df test_df;
    let validation_passed := Nat.eqb (length error_messages) 0 in
    drift_status ←
      (if validation_passed then detect_dataset_drift train_df test_df
       else mret false);
    let message := compose_message drift_status validation_passed error_messages in
    let artifact :=
      {| validation_status := validation_passed;
         message := message;
         drift_report_file_path :=
           config_drift_report_file_path (data_validation_config self) |} in
    emit (LogCompleted artifact);;
    mret artifact).
End Methods.

End DataValidation.

(** ** The class [MongoDBClient]

    [PredictiveAnalytics/configuration/mongo_db_connection2_toberenameback.py]:
    a constructor that keeps one driver client in a class attribute and
    hands it to every instance. *)

Module MongoDB.
Import Py.

(** What leaves the constructor when it fails: the text an exception
    was built from (line 35), an exception of the driver, or the
    [PredictiveAnalyticsException] built around either. *)
Inductive failure : Type :=
| Message (text : string)
| Driver (e : exn)
| Wrapped (cause : failure).

Inductive answer (A : Type) : Type :=
| Returned (a : A)
| Raised (f : failure).
Arguments Returned {A} a.
Arguments Raised {A} f.

(** What the constructor does besides returning. *)
Inductive mongo_event : Type :=
| ReadEnviron (key : string)
| Connect (url : string)
| LogConnected.

Section Client.
(** The driver's client and database handles, the name of the
    environment variable ([MONGODB_URL_KEY] of the constants module),
    [pymongo.MongoClient(url, tlsCAFile=ca)] and [client[name]]. *)
Variables Client Database : Type.
Variable MONGODB_URL_KEY : string.
Variable mongo_client : string -> result Client.
Variable database_of : Client -> string -> result Database.

(** An instance, with the attributes the constructor sets. *)
Record MongoDBClient : Type := {
  client : Client;
  database : Database;
  database_name : string
}.

(** One call of the constructor: the class attribute [client] after
    it, what it did, and how it ended. *)
Record construction : Type := {
  class_client : option Client;
  events : list mongo_event;
  constructed : answer MongoDBClient
}.

Definition not_set_message : string :=
  "Environment variable '" +:+ MONGODB_URL_KEY +:+ "' is not set.".

(** Lines 44-48, with the class attribute holding [c]. *)
Definition attach (c : Client) (done : list mongo_event) (name : string)
    : construction :=
  match database_of c name with
  | Ok db =>
      {| class_client := Some c;
         events := done ++ [LogConnected];
         constructed := Returned {| client := c; database := db;
                                    database_name := name |} |}
  | Raise e =>
      {| class_client := Some c;
         events := done;
         constructed := Raised (Wrapped (Driver e)) |}
  end.

(** [MongoDBClient(database_name)] with the class attribute holding
    [current] and the process environment [environ].  An exception
    raised inside the [try] is wrapped by its [except] clause, the one
    of line 35 included. *)
Definition __init__ (environ : gmap string string) (current : option Client)
    (name : string) : construction :=
  match current with
  | Some c => attach c [] name
  | None =>
      match environ !! MONGODB_URL_KEY with
      | None | Some EmptyString =>
          {| class_client := None;
             events := [ReadEnviron MONGODB_URL_KEY];
             constructed := Raised (Wrapped (Wrapped (Message not_set_message))) |}
      | Some mongo_db_url =>
          match mongo_client mongo_db_url with
          | Ok c =>
              attach c [ReadEnviron MONGODB_URL_KEY; Connect mongo_db_url] name
          | Raise e =>
              {| class_client := None;
                 events := [ReadEnviron MONGODB_URL_KEY; Connect mongo_db_url];
                 constructed := Raised (Wrapped (Driver e)) |}
          end
      end
  end.
End Client.

Arguments client {Client Database} m.
Arguments database {Client Database} m.
Arguments database_name {Client Database} m.
Arguments class_client {Client Database} c.
Arguments events {Client Database} c.
Arguments constructed {Client Database} c.

End MongoDB.

Import Py DataValidation.

(** ** Vocabulary of the statements *)

(** The summary returned when the loop finds no record. *)
Definition fallback_summary (reference_df : option DataFrame) : value :=
  VDict [("n_features", match reference_df with
                        | Some df => VInt (shape1 df)
                        | None => VNone
                        end);
         ("n_drifted_features", VInt 0);
         ("dataset_drift", VBool false);
         ("drift_share", VFloat 0);
         ("drift_count", VInt 0)].

(** The summary returned for a record that was found. *)
Definition matched_summary (n_features : value) (n : Z) (drift : bool)
    (s t : float) : value :=
  VDict [("n_features", n_features);
         ("n_drifted_features", VInt n);
         ("dataset_drift", VBool drift);
         ("drift_share", VFloat s);
         ("drift_count", VInt n);
         ("drift_share_threshold", VFloat t)].

(** [n_features] for a record that was found: the reference table's
    column count, else [round(count / share)] for a share that is known
    and not zero, else [None]. *)
Definition inferred_n_features (reference_df : option DataFrame)
    (count share : value) : result value :=
  match reference_df with
  | Some df => Ok (VInt (shape1 df))
  | None =>
      if truthy share && ne_zero share
      then quotient ← truediv count share; n ← round_float quotient; Ok (VInt n)
      else Ok VNone
  end.

(** The threshold in force: the configured one, [0.5] without one. *)
Definition effective_threshold (configured : value) : value :=
  if is_none configured then VFloat 0.5 else configured.

(** A record the loop passes over: a dictionary whose type tag and
    name, where present, are texts without the signature at the places
    the loop looks. *)
Definition plain_record (m : value) : Prop :=
  exists d cfg ty name,
    m = VDict d /\
    default (VDict []) (dict_lookup "config" d) = VDict cfg /\
    default (VStr "") (dict_lookup "type" cfg) = VStr ty /\
    default (VStr "") (dict_lookup "metric_name" d) = VStr name /\
    str_endswith ty signature = false /\
    str_contains signature name = false.

(** What the two schema checks decide, and what they log. *)
Definition count_matches (self : DataValidation) (df : DataFrame) : bool :=
  Nat.eqb (length (schema_columns (schema_config self))) (length (columns df)).

Definition missing_numerical (self : DataValidation) (df : DataFrame) : list string :=
  missing_from df (numerical_columns (schema_config self)).

Definition missing_categorical (self : DataValidation) (df : DataFrame) : list string :=
  missing_from df (categorical_columns (schema_config self)).

Definition has_required (self : DataValidation) (df : DataFrame) : bool :=
  negb (nonempty (missing_numerical self df) || nonempty (missing_categorical self df)).

Definition count_log (self : DataValidation) (df : DataFrame) : event :=
  LogColumnCount (length (schema_columns (schema_config self)))
                 (length (columns df)) (count_matches self df).

Definition missing_log (self : DataValidation) (df : DataFrame) : list event :=
  (if nonempty (missing_numerical self df)
   then [LogMissingNumerical (missing_numerical self df)] else []) ++
  (if nonempty (missing_categorical self df)
   then [LogMissingCategorical (missing_categorical self df)] else []).

(** The messages accumulated by the four checks, and their log. *)
Definition schema_errors (self : DataValidation) (train_df test_df : DataFrame)
    : list string :=
  (if count_matches self train_df then []
   else ["Training data: Column count mismatch."]) ++
  (if count_matches self test_df then []
   else ["Test data: Column count mismatch."]) ++
  (if has_required self train_df then []
   else ["Training data: Missing required columns."]) ++
  (if has_required self test_df then []
   else ["Test data: Missing required columns."]).

Definition checks_log (self : DataValidation) (train_df test_df : DataFrame)
    : list event :=
  [count_log self train_df; count_log self test_df] ++
  missing_log self train_df ++ missing_log self test_df.

(** The artifact built from the three locals of the orchestrator. *)
Definition artifact_of (self : DataValidation) (validation_passed drift_status : bool)
    (error_messages : list string) : DataValidationArtifact :=
  {| validation_status := validation_passed;
     message := compose_message drift_status validation_passed error_messages;
     drift_report_file_path :=
       config_drift_report_file_path (data_validation_config self) |}.

Definition is_run_report (e : event) : bool :=
  match e with
  | RunReport _ _ => true
  | _ => false
  end.

(** The fields of a record as the drift engine writes them: a count
    that is an integer, a share and a threshold that are floats, each
    possibly absent. *)
Definition integer_or_none (v : value) : Prop := v = VNone \/ exists z, v = VInt z.
Definition float_or_none (v : value) : Prop := v = VNone \/ exists f, v = VFloat f.

(** The integer a count stands for, and the float a share or a
    threshold stands for, with the value used in its absence. *)
Definition int_or_zero (v : value) : Z :=
  match v with
  | VInt z => z
  | _ => 0
  end.

Definition float_or (dflt : float) (v : value) : float :=
  match v with
  | VFloat f => f
  | _ => dflt
  end.

(** The summary of a record whose count is an integer and whose share
    and threshold are floats, each possibly absent. *)
Definition numeric_summary (n_features : value) (count share configured : value)
    : value :=
  matched_summary n_features (int_or_zero count)
    (if is_none share then false
     else float_ge (float_or 0 share) (float_or 0.5 configured))
    (float_or 0 share) (float_or 0.5 configured).

(** The document [detect_dataset_drift] persists as YAML. *)
Definition profile_like (n_features : value) (n : Z) (drift : bool) (s t : float)
    (raw_metrics : value) : value :=
  VDict [("data_drift",
          VDict [("data",
                  VDict [("metrics",
                          VDict [("n_features", n_features);
                                 ("n_drifted_features", VInt n);
                                 ("dataset_drift", VBool drift);
                                 ("drift_share", VFloat s);
                                 ("drift_share_threshold", VFloat t)])])]);
         ("raw_metrics", raw_metrics)].

(** The path of that document. *)
Definition yaml_path_of (json_path : string) : string :=
  str_replace json_path ".json" ".yaml".

(** The constructor's requests to connect. *)
Definition is_connect (e : MongoDB.mongo_event) : bool :=
  match e with
  | MongoDB.Connect _ => true
  | _ => false
  end.

(** ** Sample inputs *)

(** Conversions for reports that carry no number as text. *)
Definition no_text_numbers : text_conversions :=
  {| float_of_text := fun _ => Raise ValueError;
     int_of_text := fun _ => Raise ValueError |}.

Definition report_of (metrics : list value) : value :=
  VDict [("metrics", VList metrics)].

Definition row_count_metric : value :=
  VDict [("metric_name", VStr "RowCount()");
         ("config", VDict [("type", VStr "evidently:metric_v2:RowCount")]);
         ("value", VInt 100)].

Definition drifted_columns_metric (result config : list (string * value)) : value :=
  VDict [("metric_name", VStr "DriftedColumnsCount(drift_share=0.5)");
         ("config",
          VDict (("type", VStr "evidently:metric_v2:DriftedColumnsCount") :: config));
         ("value", VDict result)].

(** A report whose share sits exactly on its configured threshold. *)
Definition boundary_metric : value :=
  drifted_columns_metric [("count", VInt 3); ("share", VFloat 0.5)]
                         [("drift_share", VFloat 0.5)].

Definition boundary_report : value :=
  report_of [row_count_metric; boundary_metric].

(** A report with no drifted column, under a threshold configured as 0. *)
Definition zero_metric : value :=
  drifted_columns_metric [("count", VInt 0); ("share", VInt 0)]
                         [("drift_share", VInt 0)].

Definition zero_report : value := report_of [row_count_metric; zero_metric].

(** A report whose drifted-columns record has a share and no count. *)
Definition missing_count_metric : value :=
  drifted_columns_metric [("share", VFloat 0.5)] [].

Definition missing_count_report : value :=
  report_of [row_count_metric; missing_count_metric].

(** Reports without a drifted-columns record. *)
Definition empty_report : value := report_of [].
Definition plain_report : value := report_of [row_count_metric].

Definition three_columns : DataFrame :=
  {| columns := ["continent"; "prevailing_wage"; "case_status"]; rows := [] |}.

(** A schema of three columns, a table that has them, and one that
    lacks the last. *)
Definition sample_self : DataValidation :=
  {| data_ingestion_artifact :=
       {| trained_file_path := "artifact/train.csv";
          test_file_path := "artifact/test.csv" |};
     data_validation_config :=
       {| config_drift_report_file_path := "artifact/drift_report/report.json" |};
     schema_config :=
       {| schema_columns := ["continent"; "prevailing_wage"; "case_status"];
          numerical_columns := ["prevailing_wage"];
          categorical_columns := ["continent"; "case_status"] |} |}.

Definition two_columns : DataFrame :=
  {| columns := ["continent"; "prevailing_wage"]; rows := [] |}.

(** Both files hold the valid table. *)
Definition read_valid (path : string) : result DataFrame := Ok three_columns.

(** The test file lacks a column. *)
Definition read_short_test (path : string) : result DataFrame :=
  if String.eqb path "artifact/test.csv" then Ok two_columns else Ok three_columns.

(** An engine that reports three of six columns drifted. *)
Definition sample_engine (reference current : DataFrame) : result value :=
  Ok boundary_report.

(** A driver whose clients are their URLs and whose databases are a
    client with a name; it refuses URLs of another scheme and the
    empty database name. *)
Definition sample_key : string := "MONGODB_URL".

Definition sample_mongo_client (url : string) : result string :=
  if String.prefix "mongodb" url then Ok url else Raise ValueError.

Definition sample_database_of (c name : string) : result (string * string) :=
  if String.eqb name "" then Raise ValueError else Ok (c, name).

Definition sample_environ : gmap string string :=
  {[ "MONGODB_URL" := "mongodb://localhost:27017" ]}.

(** * Properties *)

(** ** Text *)

Lemma append_cons (c : ascii) (a q : string) :
  (String c a ++ q)%string = String c (a ++ q)%string.
Proof. reflexivity. Qed.

Lemma append_empty (q : string) : ("" ++ q)%string = q.
Proof. reflexivity. Qed.

Ltac norm_append := rewrite ?append_cons, ?append_empty in *.

Lemma prefix_spec (a b : string) :
  String.prefix a b = true <-> exists q, b = (a ++ q)%string.
Proof.
  revert b. induction a as [|c a IH]; intros b.
  - split; [exists b; reflexivity|destruct b; reflexivity].
  - destruct b as [|c' b]; simpl.
    + split; [discriminate|]. intros [q Hq]. discriminate.
    + destruct (ascii_dec c c') as [->|Hne].
      * rewrite IH. split; intros [q Hq]; exists q; norm_append; congruence.
      * split; [discriminate|]. intros [q Hq]. norm_append. congruence.
Qed.

(** [str_endswith s suffix] holds exactly when [s] is some text
    followed by [suffix]. *)
Lemma str_endswith_spec (s suffix : string) :
  str_endswith s suffix = true <-> exists p, s = (p ++ suffix)%string.
Proof.
  induction s as [|c s IH]; cbn [str_endswith].
  - rewrite orb_false_r, String.eqb_eq. split.
    + intros <-. exists "". reflexivity.
    + intros [[|c p] Hp]; norm_append; [exact Hp|discriminate].
  - rewrite orb_true_iff, String.eqb_eq, IH. split.
    + intros [<-|[p ->]]; [exists ""|exists (String c p)]; reflexivity.
    + intros [[|c' p] Hp]; norm_append; [left; exact Hp|right].
      injection Hp as _ ->. exists p. reflexivity.
Qed.

(** [str_contains needle s] holds exactly when [needle] occurs in [s]. *)
Lemma str_contains_spec (needle s : string) :
  str_contains needle s = true <->
  exists p q, s = (p ++ needle ++ q)%string.
Proof.
  induction s as [|c s IH]; cbn [str_contains].
  - rewrite orb_false_r, prefix_spec. split.
    + intros [q Hq]. exists "", q. exact Hq.
    + intros [[|c p] [q Hq]]; norm_append; [exists q; exact Hq|discriminate].
  - rewrite orb_true_iff, prefix_spec, IH. split.
    + intros [[q Hq]|(p & q & ->)].
      * exists "", q. exact Hq.
      * exists (String c p), q. reflexivity.
    + intros [[|c' p] [q Hq]]; norm_append.
      * left. exists q. exact Hq.
      * right. injection Hq as _ ->. exists p, q. reflexivity.
Qed.

(** ** Comparisons of floats

    The primitive comparisons are specified by [SFcompare] on the
    decoded operands; the facts below are read off that function. *)



(** A float equal to zero decodes to one of the two zeros. *)
Lemma float_eq_zero_inv (s : float) :
  PrimFloat.eqb s 0 = true -> exists sg, Prim2SF s = S754_zero sg.
Proof.
  rewrite FloatAxioms.eqb_spec. change (Prim2SF 0) with (S754_zero false).
  unfold SFeqb. destruct (Prim2SF s) as [sg|sg| |sg m e]; simpl.
  - eauto.
  - destruct sg; discriminate.
  - discriminate.
  - destruct sg; discriminate.
Qed.

(** Against a zero of either sign, [>=] is [>=] against [0.0]. *)
Lemma float_ge_zero (s t : float) :
  PrimFloat.eqb s 0 = true -> float_ge s t = float_ge 0 t.
Proof.
  intros Hs. destruct (float_eq_zero_inv s Hs) as [sg Hsg].
  unfold float_ge. rewrite !leb_spec, Hsg.
  change (Prim2SF 0) with (S754_zero false).
  unfold SFleb. destruct (Prim2SF t) as [st|st| |st m e]; reflexivity.
Qed.

(** Zero is not [>=] a positive threshold, and is [>=] any threshold
    that is zero or negative. *)
Lemma float_zero_ge_positive (t : float) :
  PrimFloat.ltb 0 t = true -> float_ge 0 t = false.
Proof.
  unfold float_ge. rewrite ltb_spec, leb_spec.
  change (Prim2SF 0) with (S754_zero false).
  unfold SFltb, SFleb.
  destruct (Prim2SF t) as [st|st| |st m e]; simpl; try discriminate;
    destruct st; simpl; try discriminate; reflexivity.
Qed.

Lemma float_zero_ge_nonpositive (t : float) :
  PrimFloat.leb t 0 = true -> float_ge 0 t = true.
Proof. unfold float_ge. tauto. Qed.

(** ** The normaliser, case by case *)

Ltac unfold_binds := unfold mbind, result_bind in *.

Tactic Notation "step" hyp(H) "as" ident(x) ident(E) :=
  match type of H with
  | context [match ?r with Ok _ => _ | Raise _ => _ end] =>
      destruct r as [x|] eqn:E; simpl in H; [|discriminate H]
  end.

Lemma parse_scan_raises conv report ref e :
  drifted_metric_of report = Raise e ->
  parse_evidently_metrics_to_profile_like conv report ref = Raise e.
Proof.
  unfold drifted_metric_of, metrics_of, parse_evidently_metrics_to_profile_like.
  unfold_binds.
  destruct (get report "metrics" (VList [])) as [metrics|]; [|congruence].
  destruct (iter metrics) as [records|]; [|congruence].
  intros ->. reflexivity.
Qed.

Lemma parse_no_match conv report ref :
  drifted_metric_of report = Ok None ->
  parse_evidently_metrics_to_profile_like conv report ref = Ok (fallback_summary ref).
Proof.
  unfold drifted_metric_of, metrics_of, parse_evidently_metrics_to_profile_like.
  unfold_binds.
  destruct (get report "metrics" (VList [])) as [metrics|]; [|discriminate].
  destruct (iter metrics) as [records|]; [|discriminate].
  intros ->. reflexivity.
Qed.

(** For a record that was found, the normaliser returns exactly when
    each of its conversions does, and then returns the summary built
    from their results. *)
Lemma parse_matched conv report ref m out :
  drifted_metric_of report = Ok (Some m) ->
  parse_evidently_metrics_to_profile_like conv report ref = Ok out <->
  exists count share configured n_features n s t,
    value_field m "count" = Ok count /\
    value_field m "share" = Ok share /\
    config_field m "drift_share" = Ok configured /\
    inferred_n_features ref count share = Ok n_features /\
    (if is_none count then Ok 0 else to_int conv count) = Ok n /\
    (if is_none share then Ok 0%float else to_float conv share) = Ok s /\
    to_float conv (effective_threshold configured) = Ok t /\
    out = matched_summary n_features n
            (if is_none share then false else float_ge s t) s t.
Proof.
  unfold drifted_metric_of, metrics_of, value_field, config_field,
    parse_evidently_metrics_to_profile_like, inferred_n_features,
    effective_threshold, matched_summary.
  unfold_binds.
  destruct (get report "metrics" (VList [])) as [metrics|]; [|discriminate].
  destruct (iter metrics) as [records|]; [|discriminate].
  intros ->. split.
  - intros Hp.
    destruct (get m "value" (VDict [])) as [value|]; [|discriminate].
    destruct (get value "count" VNone) as [count|]; [|discriminate].
    destruct (get value "share" VNone) as [share|]; [|discriminate].
    step Hp as nf Hnf.
    destruct (get m "config" (VDict [])) as [config|]; [|discriminate].
    destruct (get config "drift_share" VNone) as [configured|]; [|discriminate].
    step Hp as drift Hdrift. step Hp as n Hn. step Hp as s Hs. step Hp as t Ht.
    injection Hp as <-.
    exists count, share, configured, nf, n, s, t.
    repeat split; try assumption.
    destruct (is_none share); [congruence|].
    rewrite Hs in Hdrift. congruence.
  - intros (count & share & configured & nf & n & s & t
            & Hc & Hs & Hcfg & Hn & Hi & Hf & Ht & ->).
    destruct (get m "value" (VDict [])) as [value|]; [|discriminate].
    rewrite Hc, Hs.
    assert (Hn' :
      match ref with
      | Some df => Ok (VInt (shape1 df))
      | None =>
          if (if truthy share then ne_zero share else false)
          then match truediv count share with
               | Ok q => match round_float q with
                         | Ok k => Ok (VInt k)
                         | Raise e => Raise e
                         end
               | Raise e => Raise e
               end
          else Ok VNone
      end = Ok nf).
    { destruct ref; [assumption|]. destruct (truthy share); assumption. }
    rewrite Hn'.
    destruct (get m "config" (VDict [])) as [config|]; [|discriminate].
    rewrite Hcfg, Ht, Hi.
    destruct (is_none share); [injection Hf as <-|rewrite Hf]; reflexivity.
Qed.

(** The loop finds nothing exactly when every record fails its test. *)
Lemma find_drifted_metric_none (records : list value) :
  find_drifted_metric records = Ok None <->
  Forall (fun m => is_drifted_columns_metric m = Ok false) records.
Proof.
  induction records as [|m rest IH]; simpl.
  - split; [constructor|reflexivity].
  - unfold_binds.
    destruct (is_drifted_columns_metric m) as [[|]|] eqn:Hm.
    + split; [discriminate|]. intros H. inversion H; congruence.
    + rewrite IH. split; [intros H; constructor; auto|].
      intros H. inversion H; assumption.
    + split; [discriminate|]. intros H. inversion H; congruence.
Qed.

(** The record the loop stops at passes the test, and is one of the
    records. *)
Lemma find_drifted_metric_some (records : list value) (m : value) :
  find_drifted_metric records = Ok (Some m) ->
  is_drifted_columns_metric m = Ok true /\ In m records.
Proof.
  induction records as [|x rest IH]; simpl; [discriminate|].
  unfold_binds.
  destruct (is_drifted_columns_metric x) as [[|]|] eqn:Hx; [| |discriminate].
  - intros [= ->]. auto.
  - intros H. destruct (IH H). auto.
Qed.

Lemma plain_record_not_drifted (m : value) :
  plain_record m -> is_drifted_columns_metric m = Ok false.
Proof.
  intros (d & cfg & ty & name & -> & Hcfg & Hty & Hname & Hsuf & Hsub).
  unfold is_drifted_columns_metric, get. unfold_binds.
  rewrite Hcfg, Hty. simpl. rewrite Hsuf, Hname. simpl. rewrite Hsub.
  reflexivity.
Qed.

(** ** Drift decision *)



(** C2, as the code has it.  A share of 0 under a threshold of 0 is a
    drift: [0.0 >= 0.0]. *)
Lemma zero_share_zero_threshold_drifts :
  drifted_metric_of zero_report = Ok (Some zero_metric) /\
  value_field zero_metric "share" = Ok (VInt 0) /\
  config_field zero_metric "drift_share" = Ok (VInt 0) /\
  exists out,
    parse_evidently_metrics_to_profile_like no_text_numbers zero_report None = Ok out /\
    field out "dataset_drift" = Some (VBool true).
Proof.
  repeat split.
  exists (matched_summary VNone 0 true 0 0). split; reflexivity.
Qed.

Lemma to_float_of_zero conv share s :
  eq_zero share = true -> to_float conv share = Ok s -> PrimFloat.eqb s 0 = true.
Proof.
  destruct share as [ |b|z|f|txt|l|d]; simpl; try discriminate.
  - destruct b; [discriminate|]. intros _ [= <-]. reflexivity.
  - intros Hz. apply Z.eqb_eq in Hz. subst z. intros [= <-]. reflexivity.
  - intros Hf [= <-]. exact Hf.
Qed.

(** C2, amended.  For a share equal to 0 the returned [dataset_drift]
    is [0.0 >= drift_share_threshold]: [False] under every positive
    threshold, the default 0.5 among them, and [True] under a threshold
    that is zero or negative. *)
Theorem zero_share_drift_follows_threshold conv report ref m share out :
  drifted_metric_of report = Ok (Some m) ->
  value_field m "share" = Ok share ->
  eq_zero share = true ->
  parse_evidently_metrics_to_profile_like conv report ref = Ok out ->
  exists configured t,
    config_field m "drift_share" = Ok configured /\
    to_float conv (effective_threshold configured) = Ok t /\
    field out "drift_share_threshold" = Some (VFloat t) /\
    field out "dataset_drift" = Some (VBool (float_ge 0 t)) /\
    (PrimFloat.ltb 0 t = true -> field out "dataset_drift" = Some (VBool false)) /\
    (PrimFloat.leb t 0 = true -> field out "dataset_drift" = Some (VBool true)) /\
    (configured = VNone -> field out "dataset_drift" = Some (VBool false)).
Proof.
  intros Hm Hshare Hzero Hp.
  apply (parse_matched conv report ref m out Hm) in Hp.
  destruct Hp as (count & share' & configured & nf & n & s & t
                  & _ & Hs' & Hcfg & _ & _ & Hf & Ht & ->).
  rewrite Hshare in Hs'. injection Hs' as <-.
  assert (Hnone : is_none share = false) by (destruct share; [discriminate|..]; reflexivity).
  rewrite Hnone in *.
  pose proof (to_float_of_zero conv share s Hzero Hf) as Hs0.
  exists configured, t. simpl. rewrite (float_ge_zero s t Hs0).
  repeat split; try assumption.
  - intros Hpos. rewrite (float_zero_ge_positive t Hpos). reflexivity.
  - intros Hneg. rewrite (float_zero_ge_nonpositive t Hneg). reflexivity.
  - intros ->. simpl in Ht. injection Ht as <-. reflexivity.
Qed.

Lemma zero_share_drift_follows_threshold_witness :
  exists configured t,
    config_field zero_metric "drift_share" = Ok configured /\
    to_float no_text_numbers (effective_threshold configured) = Ok t /\
    field (matched_summary (VInt 3) 0 true 0 0) "drift_share_threshold"
    = Some (VFloat t) /\
    field (matched_summary (VInt 3) 0 true 0 0) "dataset_drift"
    = Some (VBool (float_ge 0 t)) /\
    (PrimFloat.ltb 0 t = true ->
     field (matched_summary (VInt 3) 0 true 0 0) "dataset_drift"
     = Some (VBool false)) /\
    (PrimFloat.leb t 0 = true ->
     field (matched_summary (VInt 3) 0 true 0 0) "dataset_drift"
     = Some (VBool true)) /\
    (configured = VNone ->
     field (matched_summary (VInt 3) 0 true 0 0) "dataset_drift"
     = Some (VBool false)).
Proof.
  apply (zero_share_drift_follows_threshold no_text_numbers zero_report
           (Some three_columns) zero_metric (VInt 0)); reflexivity.
Defined.

(** ** The configured threshold *)

(** For a record that was found, the summary carries the threshold as
    a float: the configured one, 0.5 when none is configured. *)
Lemma matched_summary_has_threshold conv report ref m out :
  drifted_metric_of report = Ok (Some m) ->
  parse_evidently_metrics_to_profile_like conv report ref = Ok out ->
  exists configured t,
    config_field m "drift_share" = Ok configured /\
    to_float conv (effective_threshold configured) = Ok t /\
    field out "drift_share_threshold" = Some (VFloat t) /\
    (configured = VNone -> t = 0.5%float).
Proof.
  intros Hm Hp.
  apply (parse_matched conv report ref m out Hm) in Hp.
  destruct Hp as (count & share & configured & nf & n & s & t
                  & _ & _ & Hcfg & _ & _ & _ & Ht & ->).
  exists configured, t. repeat split; try assumption.
  intros ->. simpl in Ht. congruence.
Qed.

(** Without such a record the summary has no threshold at all. *)
Lemma no_match_summary_lacks_threshold conv report ref :
  drifted_metric_of report = Ok None ->
  exists out,
    parse_evidently_metrics_to_profile_like conv report ref = Ok out /\
    field out "drift_share_threshold" = None.
Proof.
  intros H. exists (fallback_summary ref).
  split; [apply parse_no_match; exact H|reflexivity].
Qed.

(** C3, at a report with an empty list of metrics: the summary is
    returned without a [drift_share_threshold] entry, where the claim
    expects the default 0.5. *)
Theorem fallback_summary_lacks_threshold conv ref :
  drifted_metric_of empty_report = Ok None /\
  parse_evidently_metrics_to_profile_like conv empty_report ref
  = Ok (fallback_summary ref) /\
  field (fallback_summary ref) "drift_share_threshold" = None.
Proof. repeat split. Qed.

(** ** No drifted-columns record *)

(** C4. When no record of the report passes the loop's test, the
    normaliser returns, without raising, the summary with
    [n_drifted_features = 0], [dataset_drift = False],
    [drift_share = 0.0] and, for [n_features], the reference table's
    column count when a table is supplied and [None] otherwise. *)
Theorem no_match_returns_fallback conv report ref records :
  metrics_of report = Ok records ->
  Forall (fun m => is_drifted_columns_metric m = Ok false) records ->
  parse_evidently_metrics_to_profile_like conv report ref
  = Ok (fallback_summary ref) /\
  field (fallback_summary ref) "n_features"
  = Some (match ref with
          | Some df => VInt (Z.of_nat (length (columns df)))
          | None => VNone
          end) /\
  field (fallback_summary ref) "n_drifted_features" = Some (VInt 0) /\
  field (fallback_summary ref) "dataset_drift" = Some (VBool false) /\
  field (fallback_summary ref) "drift_share" = Some (VFloat 0).
Proof.
  intros Hms Hall. split; [|repeat split].
  apply parse_no_match. unfold drifted_metric_of. unfold_binds.
  rewrite Hms. apply find_drifted_metric_none. exact Hall.
Qed.

Lemma no_match_returns_fallback_witness :
  parse_evidently_metrics_to_profile_like no_text_numbers plain_report
    (Some three_columns)
  = Ok (fallback_summary (Some three_columns)) /\
  field (fallback_summary (Some three_columns)) "n_features"
  = Some (VInt (Z.of_nat (length (columns three_columns)))) /\
  field (fallback_summary (Some three_columns)) "n_drifted_features"
  = Some (VInt 0) /\
  field (fallback_summary (Some three_columns)) "dataset_drift"
  = Some (VBool false) /\
  field (fallback_summary (Some three_columns)) "drift_share"
  = Some (VFloat 0).
Proof.
  apply (no_match_returns_fallback no_text_numbers plain_report
           (Some three_columns) [row_count_metric]).
  - reflexivity.
  - repeat constructor.
Defined.

(** A report whose records are all plain has no match. *)
Lemma plain_records_no_match conv report ref records :
  metrics_of report = Ok records ->
  Forall plain_record records ->
  parse_evidently_metrics_to_profile_like conv report ref
  = Ok (fallback_summary ref).
Proof.
  intros Hms Hall.
  apply (no_match_returns_fallback conv report ref records Hms).
  eapply Forall_impl; [exact Hall|]. apply plain_record_not_drifted.
Qed.

(** ** Inferring the number of features *)

(** A share that counts as true differs from 0: the second half of
    the guard [share and share != 0] never decides. *)
Lemma truthy_ne_zero (share : value) : truthy share = true -> ne_zero share = true.
Proof.
  destruct share as [ |b|z|f|txt|l|d]; unfold ne_zero; simpl;
    try reflexivity; try (intros H; exact H).
  destruct b; [reflexivity|discriminate].
Qed.

(** With no reference table and a share that is known and not zero,
    [n_features] is [round(count / share)] whenever the summary is
    returned. *)
Lemma n_features_from_share conv report m count share out :
  drifted_metric_of report = Ok (Some m) ->
  value_field m "count" = Ok count ->
  value_field m "share" = Ok share ->
  truthy share = true ->
  parse_evidently_metrics_to_profile_like conv report None = Ok out ->
  exists quotient n,
    truediv count share = Ok quotient /\
    round_float quotient = Ok n /\
    field out "n_features" = Some (VInt n).
Proof.
  intros Hm Hcount Hshare Htruthy Hp.
  apply (parse_matched conv report None m out Hm) in Hp.
  destruct Hp as (count' & share' & configured & nf & n & s & t
                  & Hc' & Hs' & _ & Hnf & _ & _ & _ & ->).
  rewrite Hcount in Hc'. injection Hc' as <-.
  rewrite Hshare in Hs'. injection Hs' as <-.
  pose proof (truthy_ne_zero share Htruthy) as Hne.
  unfold inferred_n_features in Hnf. rewrite Htruthy, Hne in Hnf.
  simpl in Hnf. unfold_binds.
  destruct (truediv count share) as [q|]; [|discriminate].
  destruct (round_float q) as [k|] eqn:Hk; [|discriminate].
  injection Hnf as <-. exists q, k. repeat split. exact Hk.
Qed.

(** There, a count that is missing is divided all the same. *)
Lemma missing_count_raises conv report m share :
  drifted_metric_of report = Ok (Some m) ->
  value_field m "count" = Ok VNone ->
  value_field m "share" = Ok share ->
  truthy share = true ->
  parse_evidently_metrics_to_profile_like conv report None = Raise TypeError.
Proof.
  unfold drifted_metric_of, metrics_of, value_field,
    parse_evidently_metrics_to_profile_like.
  unfold_binds.
  destruct (get report "metrics" (VList [])) as [metrics|]; [|discriminate].
  destruct (iter metrics) as [records|]; [|discriminate].
  intros -> Hcount Hshare Htruthy.
  destruct (get m "value" (VDict [])) as [value|]; [|discriminate].
  rewrite Hcount, Hshare, Htruthy.
  pose proof (truthy_ne_zero share Htruthy) as Hne.
  rewrite Hne. reflexivity.
Qed.

(** C5, at a report whose record has a share of 0.5 and no count, with
    no reference table: the normaliser raises [TypeError] where the
    claim expects the count to default to 0. *)
Theorem missing_count_without_reference_raises conv :
  drifted_metric_of missing_count_report = Ok (Some missing_count_metric) /\
  value_field missing_count_metric "count" = Ok VNone /\
  value_field missing_count_metric "share" = Ok (VFloat 0.5) /\
  parse_evidently_metrics_to_profile_like conv missing_count_report None
  = Raise TypeError.
Proof. repeat split. Qed.

(** ** The two counts *)



(** ** Schema checks *)

Lemma validate_number_of_columns_run self df :
  validate_number_of_columns self df
  = Run [count_log self df] (Ok (count_matches self df)).
Proof. reflexivity. Qed.

Lemma is_column_exist_run self df :
  is_column_exist self df = Run (missing_log self df) (Ok (has_required self df)).
Proof.
  unfold is_column_exist, has_required, missing_log, missing_numerical,
    missing_categorical, wrapped.
  destruct (nonempty (missing_from df (numerical_columns (schema_config self))));
    destruct (nonempty (missing_from df (categorical_columns (schema_config self))));
    reflexivity.
Qed.

Lemma nonempty_false {A : Type} (l : list A) : nonempty l = false <-> l = [].
Proof. destruct l; simpl; split; congruence. Qed.

Lemma missing_from_spec (df : DataFrame) (names : list string) (c : string) :
  c ∈ missing_from df names <-> c ∈ names /\ c ∉ columns df.
Proof.
  unfold missing_from. rewrite list_elem_of_filter, elem_of_list_to_set. tauto.
Qed.

(** C8. The column-count check returns [True] exactly when the table
    has as many columns as the schema lists; which columns they are,
    and in which order, plays no part. *)
Theorem validate_number_of_columns_exact self T :
  exists status,
    outcome (validate_number_of_columns self T) = Ok status /\
    (status = true <->
     length (columns T) = length (schema_columns (schema_config self))) /\
    (forall T', length (columns T') = length (columns T) ->
                outcome (validate_number_of_columns self T') = Ok status).
Proof.
  exists (count_matches self T). split; [reflexivity|]. split.
  - unfold count_matches. rewrite Nat.eqb_eq. split; congruence.
  - intros T' Hlen. rewrite validate_number_of_columns_run. simpl.
    unfold count_matches. rewrite Hlen. reflexivity.
Qed.

(** C9. The column-existence check returns [False] exactly when some
    required numerical or categorical name is not a column of the
    table; the names it finds missing are those names, and there are
    some exactly when it returns [False]. *)
Theorem is_column_exist_iff_none_missing self T :
  exists status,
    outcome (is_column_exist self T) = Ok status /\
    (status = false <->
     exists c, (c ∈ numerical_columns (schema_config self) \/
                c ∈ categorical_columns (schema_config self)) /\
               c ∉ columns T) /\
    (status = false <->
     (missing_numerical self T ++ missing_categorical self T)%list <> []) /\
    (forall c, c ∈ (missing_numerical self T ++ missing_categorical self T)%list <->
               (c ∈ numerical_columns (schema_config self) \/
                c ∈ categorical_columns (schema_config self)) /\
               c ∉ columns T) /\
    trace (is_column_exist self T) = missing_log self T.
Proof.
  exists (has_required self T). rewrite is_column_exist_run. simpl.
  assert (Hmem : forall c,
    c ∈ (missing_numerical self T ++ missing_categorical self T)%list <->
    (c ∈ numerical_columns (schema_config self) \/
     c ∈ categorical_columns (schema_config self)) /\ c ∉ columns T).
  { intros c. unfold missing_numerical, missing_categorical.
    rewrite elem_of_app, !missing_from_spec. tauto. }
  assert (Hne : has_required self T = false <->
    (missing_numerical self T ++ missing_categorical self T)%list <> []).
  { unfold has_required.
    destruct (missing_numerical self T) as [|x xs];
      destruct (missing_categorical self T) as [|y ys]; simpl;
      split; congruence. }
  split; [reflexivity|]. split; [|split; [exact Hne|split; [exact Hmem|reflexivity]]].
  rewrite Hne. split.
  - intros Hnil.
    destruct ((missing_numerical self T ++ missing_categorical self T)%list)
      as [|c rest] eqn:Hl; [congruence|].
    exists c. apply Hmem. left.
  - intros [c Hc] Hnil. apply Hmem in Hc. rewrite Hnil in Hc.
    apply elem_of_nil in Hc. exact Hc.
Qed.

(** ** Orchestration *)

(** The four checks always run to the end, and leave these messages
    and this log. *)
Lemma run_schema_checks_run self train test :
  run_schema_checks self train test
  = Run (checks_log self train test) (Ok (schema_errors self train test)).
Proof.
  unfold run_schema_checks.
  rewrite !validate_number_of_columns_run, !is_column_exist_run.
  unfold mbind, M_bind, mret, M_ret, checks_log, schema_errors, append_unless.
  simpl. rewrite !app_nil_r.
  destruct (count_matches self train), (count_matches self test),
    (has_required self train), (has_required self test); reflexivity.
Qed.

Lemma schema_errors_nil self train test :
  schema_errors self train test = [] <->
  count_matches self train = true /\ count_matches self test = true /\
  has_required self train = true /\ has_required self test = true.
Proof.
  unfold schema_errors.
  destruct (count_matches self train), (count_matches self test),
    (has_required self train), (has_required self test); simpl;
    split; try discriminate; intuition discriminate.
Qed.

Lemma length_eqb_0 {A : Type} (l : list A) : Nat.eqb (length l) 0 = true <-> l = [].
Proof. destruct l; simpl; split; congruence. Qed.

(** *** One step of a computation at a time *)

Lemma wrapped_ok {A : Type} (m : M A) t a :
  m = Run t (Ok a) -> wrapped m = Run t (Ok a).
Proof. intros ->. reflexivity. Qed.

Lemma wrapped_raise {A : Type} (m : M A) t e :
  m = Run t (Raise e) -> wrapped m = Run t (Raise (PredictiveAnalyticsException e)).
Proof. intros ->. reflexivity. Qed.

Lemma trace_wrapped_emit {A : Type} (e : event) (f : unit -> M A) :
  trace (wrapped (emit e ≫= f)) = e :: trace (f tt).
Proof. reflexivity. Qed.

Lemma bind_emit {A : Type} (e : event) (f : unit -> M A) t o :
  f tt = Run t o -> emit e ≫= f = Run (e :: t) o.
Proof.
  intros Hf. unfold emit, mbind, M_bind. cbn [outcome trace]. rewrite Hf. reflexivity.
Qed.

Lemma bind_lift_ok {A B : Type} (r : result A) (f : A -> M B) a m :
  r = Ok a -> f a = m -> lift r ≫= f = m.
Proof.
  intros -> <-. unfold lift, mbind, M_bind. cbn [outcome trace].
  destruct (f a); reflexivity.
Qed.

Lemma bind_lift_raise {A B : Type} (r : result A) (f : A -> M B) e :
  r = Raise e -> lift r ≫= f = Run [] (Raise e).
Proof. intros ->. reflexivity. Qed.

Lemma bind_makedirs {A : Type} (path : string) (f : unit -> M A) t o :
  path <> "" -> f tt = Run t o -> makedirs path ≫= f = Run (MakeDirs path :: t) o.
Proof.
  intros Hne Hf. apply String.eqb_neq in Hne.
  unfold makedirs, emit, lift, mbind, M_bind. cbn [outcome trace].
  rewrite Hne. cbn [outcome trace mret M_ret]. rewrite Hf. reflexivity.
Qed.

Lemma bind_makedirs_empty {A : Type} (path : string) (f : unit -> M A) :
  path = "" ->
  makedirs path ≫= f = Run [MakeDirs ""] (Raise (OSError "makedirs")).
Proof. intros ->. reflexivity. Qed.

(** Drift detection starts by asking the engine, and nothing else
    does. *)
Lemma detect_dataset_drift_asks_engine conv run_report self r c :
  exists rest,
    trace (detect_dataset_drift conv run_report self r c) = RunReport r c :: rest.
Proof.
  unfold detect_dataset_drift. eexists. apply trace_wrapped_emit.
Qed.

Lemma checks_log_no_engine self train test :
  forallb (fun e => negb (is_run_report e)) (checks_log self train test) = true.
Proof.
  unfold checks_log, missing_log.
  destruct (nonempty (missing_numerical self train)),
    (nonempty (missing_categorical self train)),
    (nonempty (missing_numerical self test)),
    (nonempty (missing_categorical self test)); reflexivity.
Qed.

#[local] Opaque run_schema_checks detect_dataset_drift.

(** One run of the orchestrator on two tables that load. *)
Lemma initiate_data_validation_run conv read_csv run_report self train test :
  read_csv (trained_file_path (data_ingestion_artifact self)) = Ok train ->
  read_csv (test_file_path (data_ingestion_artifact self)) = Ok test ->
  initiate_data_validation conv read_csv run_report self
  = match schema_errors self train test with
    | [] =>
        let drift := detect_dataset_drift conv run_report self train test in
        match outcome drift with
        | Ok d =>
            Run (LogStarting :: checks_log self train test ++ trace drift
                   ++ [LogCompleted (artifact_of self true d [])])
                (Ok (artifact_of self true d []))
        | Raise e =>
            Run (LogStarting :: checks_log self train test ++ trace drift)
                (Raise (PredictiveAnalyticsException e))
        end
    | errs =>
        Run (LogStarting :: checks_log self train test
               ++ [LogCompleted (artifact_of self false false errs)])
            (Ok (artifact_of self false false errs))
    end.
Proof.
  intros Htrain Htest.
  unfold initiate_data_validation, read_data, wrapped at 1, lift.
  unfold mbind, M_bind. simpl.
  rewrite Htrain. simpl. rewrite Htest. simpl.
  rewrite run_schema_checks_run. simpl.
  destruct (schema_errors self train test) as [|msg rest]; simpl.
  - destruct (outcome (detect_dataset_drift conv run_report self train test));
      simpl; rewrite ?app_nil_r; reflexivity.
  - rewrite ?app_nil_r. reflexivity.
Qed.

Lemma no_engine_in (l : list event) r c :
  forallb (fun e => negb (is_run_report e)) l = true -> RunReport r c ∉ l.
Proof.
  intros Hall Hin. apply list_elem_of_In in Hin.
  rewrite forallb_forall in Hall. specialize (Hall _ Hin). discriminate.
Qed.

Ltac decide_message :=
  split; intros H; try reflexivity; try discriminate;
  [ apply list_elem_of_In in H; simpl in H; intuition discriminate
  | apply list_elem_of_In; simpl; auto ].

(** Each message is accumulated exactly when its own check fails,
    whatever the other three checks decide. *)
Lemma schema_errors_members self train test :
  ("Training data: Column count mismatch." ∈ schema_errors self train test
   <-> count_matches self train = false) /\
  ("Test data: Column count mismatch." ∈ schema_errors self train test
   <-> count_matches self test = false) /\
  ("Training data: Missing required columns." ∈ schema_errors self train test
   <-> has_required self train = false) /\
  ("Test data: Missing required columns." ∈ schema_errors self train test
   <-> has_required self test = false).
Proof.
  unfold schema_errors.
  destruct (count_matches self train), (count_matches self test),
    (has_required self train), (has_required self test); simpl;
    repeat split; intros H; try reflexivity; try discriminate;
    try (apply list_elem_of_In in H; simpl in H; intuition discriminate);
    try (apply list_elem_of_In; simpl; auto 6).
Qed.

(** C6. On two tables that load, the orchestrator makes the four
    schema checks whatever each decides, sets [validation_status] to
    whether no message was accumulated, asks the drift engine exactly
    when that is so, and returns a status that does not depend on the
    engine; when drift detection is skipped the drift status is
    [False]. *)
Theorem schema_checks_gate_drift_detection conv read_csv run_report self train test :
  read_csv (trained_file_path (data_ingestion_artifact self)) = Ok train ->
  read_csv (test_file_path (data_ingestion_artifact self)) = Ok test ->
  outcome (run_schema_checks self train test) = Ok (schema_errors self train test) /\
  (("Training data: Column count mismatch." ∈ schema_errors self train test
    <-> count_matches self train = false) /\
   ("Test data: Column count mismatch." ∈ schema_errors self train test
    <-> count_matches self test = false) /\
   ("Training data: Missing required columns." ∈ schema_errors self train test
    <-> has_required self train = false) /\
   ("Test data: Missing required columns." ∈ schema_errors self train test
    <-> has_required self test = false)) /\
  (count_log self train ∈ trace (initiate_data_validation conv read_csv run_report self) /\
   count_log self test ∈ trace (initiate_data_validation conv read_csv run_report self)) /\
  (forall a,
      outcome (initiate_data_validation conv read_csv run_report self) = Ok a ->
      (validation_status a = true <-> schema_errors self train test = [])) /\
  (RunReport train test ∈ trace (initiate_data_validation conv read_csv run_report self)
   <-> schema_errors self train test = []) /\
  (forall r c,
      RunReport r c ∈ trace (initiate_data_validation conv read_csv run_report self) ->
      schema_errors self train test = []) /\
  (schema_errors self train test <> [] ->
   outcome (initiate_data_validation conv read_csv run_report self)
   = Ok (artifact_of self false false (schema_errors self train test))) /\
  (forall run_report' a a',
      outcome (initiate_data_validation conv read_csv run_report self) = Ok a ->
      outcome (initiate_data_validation conv read_csv run_report' self) = Ok a' ->
      validation_status a = validation_status a').
Proof.
  intros Htrain Htest.
  pose proof (initiate_data_validation_run conv read_csv run_report self
                train test Htrain Htest) as Hrun.
  pose proof (checks_log_no_engine self train test) as Hlog.
  destruct (detect_dataset_drift_asks_engine conv run_report self train test)
    as [rest Hdrift].
  assert (Hstatus : forall engine a,
    outcome (initiate_data_validation conv read_csv engine self) = Ok a ->
    (validation_status a = true <-> schema_errors self train test = [])).
  { intros engine a.
    rewrite (initiate_data_validation_run conv read_csv engine self train test
               Htrain Htest).
    destruct (schema_errors self train test) as [|msg errs]; simpl.
    - destruct (outcome (detect_dataset_drift conv engine self train test));
        simpl; [|intros ?; discriminate].
      intros [= <-]. simpl. tauto.
    - intros [= <-]. simpl. split; intros ?; discriminate. }
  assert (Hcounts : forall tl,
    count_log self train ∈ LogStarting :: (checks_log self train test ++ tl)%list /\
    count_log self test ∈ LogStarting :: (checks_log self train test ++ tl)%list).
  { intros tl. unfold checks_log. split.
    - apply elem_of_cons. right. apply elem_of_app. left.
      apply elem_of_app. left. left.
    - apply elem_of_cons. right. apply elem_of_app. left.
      apply elem_of_app. left. right. left. }
  assert (Hskip : forall art r c,
    RunReport r c ∉ LogStarting :: (checks_log self train test
                                     ++ [LogCompleted art])%list).
  { intros art r c Hin.
    apply elem_of_cons in Hin as [Hin|Hin]; [discriminate|].
    apply elem_of_app in Hin as [Hin|Hin].
    - exact (no_engine_in _ r c Hlog Hin).
    - apply list_elem_of_singleton in Hin. discriminate. }
  split; [rewrite run_schema_checks_run; reflexivity|].
  split; [apply schema_errors_members|].
  split.
  { rewrite Hrun.
    destruct (schema_errors self train test); cbn [trace];
      [destruct (outcome (detect_dataset_drift conv run_report self train test))|];
      cbn [trace]; apply Hcounts. }
  split; [exact (Hstatus run_report)|].
  split.
  { rewrite Hrun.
    destruct (schema_errors self train test) as [|msg errs]; cbn [trace].
    - split; [reflexivity|intros _].
      destruct (outcome (detect_dataset_drift conv run_report self train test));
        cbn [trace]; rewrite Hdrift; apply elem_of_cons; right;
        apply elem_of_app; right; left.
    - split; [intros Hin; destruct (Hskip _ _ _ Hin)|intros ?; discriminate]. }
  split.
  { intros r c. rewrite Hrun.
    destruct (schema_errors self train test) as [|msg errs]; cbn [trace].
    - reflexivity.
    - intros Hin. destruct (Hskip _ _ _ Hin). }
  split.
  { intros Hne. rewrite Hrun.
    destruct (schema_errors self train test) as [|msg errs];
      [congruence|reflexivity]. }
  intros engine a a' Ha Ha'.
  apply (Hstatus run_report) in Ha. apply (Hstatus engine) in Ha'.
  destruct (validation_status a), (validation_status a'); intuition congruence.
Qed.

(** C7. The message of the returned artifact is the accumulated
    messages joined by ["; "] when validation failed, ["Drift detected"]
    when it passed and drift detection returned [True], and
    ["Drift not detected"] when it passed and drift detection returned
    [False]. *)
Theorem message_follows_outcome conv read_csv run_report self train test a :
  read_csv (trained_file_path (data_ingestion_artifact self)) = Ok train ->
  read_csv (test_file_path (data_ingestion_artifact self)) = Ok test ->
  outcome (initiate_data_validation conv read_csv run_report self) = Ok a ->
  (validation_status a = false ->
   schema_errors self train test <> [] /\
   message a = String.concat "; " (schema_errors self train test)) /\
  (validation_status a = true ->
   exists d,
     outcome (detect_dataset_drift conv run_report self train test) = Ok d /\
     message a = if d then "Drift detected" else "Drift not detected").
Proof.
  intros Htrain Htest.
  rewrite (initiate_data_validation_run conv read_csv run_report self train test
             Htrain Htest).
  destruct (schema_errors self train test) as [|msg errs]; cbn [outcome].
  - cbv zeta.
    destruct (outcome (detect_dataset_drift conv run_report self train test))
      as [d|e]; cbn [outcome]; [|intros ?; discriminate].
    intros [= <-]. split; [intros ?; discriminate|].
    intros _. exists d. split; [reflexivity|]. destruct d; reflexivity.
  - intros [= <-]. split; [|intros ?; discriminate].
    intros _. split; [discriminate|reflexivity].
Qed.

#[local] Transparent run_schema_checks detect_dataset_drift.

Lemma schema_checks_gate_drift_detection_witness :
  outcome (run_schema_checks sample_self three_columns two_columns)
  = Ok (schema_errors sample_self three_columns two_columns) /\
  (("Training data: Column count mismatch."
      ∈ schema_errors sample_self three_columns two_columns
    <-> count_matches sample_self three_columns = false) /\
   ("Test data: Column count mismatch."
      ∈ schema_errors sample_self three_columns two_columns
    <-> count_matches sample_self two_columns = false) /\
   ("Training data: Missing required columns."
      ∈ schema_errors sample_self three_columns two_columns
    <-> has_required sample_self three_columns = false) /\
   ("Test data: Missing required columns."
      ∈ schema_errors sample_self three_columns two_columns
    <-> has_required sample_self two_columns = false)) /\
  (count_log sample_self three_columns
     ∈ trace (initiate_data_validation no_text_numbers read_short_test
                sample_engine sample_self) /\
   count_log sample_self two_columns
     ∈ trace (initiate_data_validation no_text_numbers read_short_test
                sample_engine sample_self)) /\
  (forall a,
      outcome (initiate_data_validation no_text_numbers read_short_test
                 sample_engine sample_self) = Ok a ->
      (validation_status a = true
       <-> schema_errors sample_self three_columns two_columns = [])) /\
  (RunReport three_columns two_columns
     ∈ trace (initiate_data_validation no_text_numbers read_short_test
                sample_engine sample_self)
   <-> schema_errors sample_self three_columns two_columns = []) /\
  (forall r c,
      RunReport r c
        ∈ trace (initiate_data_validation no_text_numbers read_short_test
                   sample_engine sample_self) ->
      schema_errors sample_self three_columns two_columns = []) /\
  (schema_errors sample_self three_columns two_columns <> [] ->
   outcome (initiate_data_validation no_text_numbers read_short_test
              sample_engine sample_self)
   = Ok (artifact_of sample_self false false
           (schema_errors sample_self three_columns two_columns))) /\
  (forall run_report' a a',
      outcome (initiate_data_validation no_text_numbers read_short_test
                 sample_engine sample_self) = Ok a ->
      outcome (initiate_data_validation no_text_numbers read_short_test
                 run_report' sample_self) = Ok a' ->
      validation_status a = validation_status a').
Proof.
  apply (schema_checks_gate_drift_detection no_text_numbers read_short_test
           sample_engine sample_self three_columns two_columns); reflexivity.
Defined.

Lemma message_follows_outcome_witness :
  (validation_status (artifact_of sample_self true true []) = false ->
   schema_errors sample_self three_columns three_columns <> [] /\
   message (artifact_of sample_self true true [])
   = String.concat "; " (schema_errors sample_self three_columns three_columns)) /\
  (validation_status (artifact_of sample_self true true []) = true ->
   exists d,
     outcome (detect_dataset_drift no_text_numbers sample_engine sample_self
                three_columns three_columns) = Ok d /\
     message (artifact_of sample_self true true [])
     = if d then "Drift detected" else "Drift not detected").
Proof.
  apply (message_follows_outcome no_text_numbers read_valid sample_engine
           sample_self three_columns three_columns); vm_compute; reflexivity.
Defined.

(** ** Further facts about the normaliser *)

(** With a reference table, the normaliser returns on every record
    whose count is an integer and whose share and threshold are floats,
    each possibly absent. *)
Lemma normaliser_returns_on_numbers conv report df m count share configured :
  drifted_metric_of report = Ok (Some m) ->
  value_field m "count" = Ok count ->
  value_field m "share" = Ok share ->
  config_field m "drift_share" = Ok configured ->
  integer_or_none count -> float_or_none share -> float_or_none configured ->
  exists out,
    parse_evidently_metrics_to_profile_like conv report (Some df) = Ok out.
Proof.
  intros Hm Hc Hs Hcfg Hcount Hshare Hthr.
  assert (exists n, (if is_none count then Ok 0 else to_int conv count) = Ok n)
    as [n Hn].
  { destruct Hcount as [->|[z ->]]; simpl; eauto. }
  assert (exists s, (if is_none share then Ok 0%float else to_float conv share) = Ok s)
    as [s Hf].
  { destruct Hshare as [->|[f ->]]; simpl; eauto. }
  assert (exists t, to_float conv (effective_threshold configured) = Ok t)
    as [t Ht].
  { destruct Hthr as [->|[f ->]]; simpl; eauto. }
  eexists. apply (parse_matched conv report (Some df) m _ Hm).
  exists count, share, configured, (VInt (shape1 df)), n, s, t.
  repeat split; assumption.
Qed.

(** [round_half_even_shift m k] is an integer nearest to [m / 2^k]. *)
Lemma round_half_even_shift_nearest (m k : Z) :
  0 <= m -> 0 <= k ->
  2 * Z.abs (round_half_even_shift m k * 2 ^ k - m) <= 2 ^ k.
Proof.
  intros Hm Hk. unfold round_half_even_shift.
  assert (Hd : 0 < 2 ^ k) by (apply Z.pow_pos_nonneg; lia).
  pose proof (Z.div_mod m (2 ^ k) ltac:(lia)) as Hdm.
  pose proof (Z.mod_pos_bound m (2 ^ k) Hd) as Hr.
  set (d := 2 ^ k) in *. set (q := m / d) in *. set (r := m mod d) in *.
  clearbody r q d.
  destruct (Z.compare_spec (2 * r) d) as [Heq|Hlt|Hgt].
  - destruct (Z.even q); lia.
  - lia.
  - lia.
Qed.

(** [round], on a float [(-1)^s * m * 2^e], is that number when it is
    an integer, and otherwise an integer at most one half away. *)
Lemma round_float_nearest (f : float) (s : bool) (m : positive) (e n : Z) :
  Prim2SF f = S754_finite s m e ->
  round_float f = Ok n ->
  (0 <= e -> n = with_sign s (Z.pos m * 2 ^ e)) /\
  (e < 0 -> 2 * Z.abs (n * 2 ^ (- e) - with_sign s (Z.pos m)) <= 2 ^ (- e)).
Proof.
  intros Hf. unfold round_float. rewrite Hf.
  destruct (0 <=? e) eqn:He; intros [= <-].
  - apply Z.leb_le in He. split; [reflexivity|lia].
  - apply Z.leb_gt in He. split; [lia|]. intros _.
    pose proof (round_half_even_shift_nearest (Z.pos m) (- e) ltac:(lia) ltac:(lia)).
    destruct s; unfold with_sign; lia.
Qed.

(** ** Drift detection on a report without the record *)

(** The summary of such a report has no threshold, so drift detection
    stops with a [KeyError] once it assembles the persisted summary. *)
Lemma detect_dataset_drift_needs_threshold conv run_report self r c report :
  run_report r c = Ok report ->
  drifted_metric_of report = Ok None ->
  dirname (config_drift_report_file_path (data_validation_config self)) <> "" ->
  outcome (detect_dataset_drift conv run_report self r c)
  = Raise (PredictiveAnalyticsException (KeyError "drift_share_threshold")).
Proof.
  intros Hrun Hnone Hdir.
  assert (exists t, detect_dataset_drift conv run_report self r c
                    = Run t (Raise (PredictiveAnalyticsException
                                      (KeyError "drift_share_threshold"))))
    as [t ->]; [|reflexivity].
  eexists. unfold detect_dataset_drift. apply wrapped_raise.
  apply bind_emit. eapply bind_lift_ok; [exact Hrun|]. cbv beta zeta.
  eapply bind_makedirs; [exact Hdir|]. do 2 apply bind_emit.
  eapply bind_lift_ok; [exact (parse_no_match conv report (Some r) Hnone)|].
  cbv beta.
  do 4 (eapply bind_lift_ok; [reflexivity|]; cbv beta).
  eapply bind_lift_raise. reflexivity.
Qed.

(** ** Scenarios *)

(** A training table that matches the schema and a test table that
    lacks a required column: validation fails with both messages for
    the test table, and the engine is never asked. *)
Example scenario_short_test_table :
  initiate_data_validation no_text_numbers read_short_test sample_engine sample_self
  = Run [LogStarting;
         LogColumnCount 3 3 true;
         LogColumnCount 3 2 false;
         LogMissingCategorical ["case_status"];
         LogCompleted
           {| validation_status := false;
              message := "Test data: Column count mismatch.; Test data: Missing required columns.";
              drift_report_file_path := "artifact/drift_report/report.json" |}]
        (Ok {| validation_status := false;
               message := "Test data: Column count mismatch.; Test data: Missing required columns.";
               drift_report_file_path := "artifact/drift_report/report.json" |}).
Proof. reflexivity. Qed.

(** Two valid tables and a share on the threshold: drift is detected
    and the message is the fixed one. *)
Example scenario_drift_detected :
  outcome (initiate_data_validation no_text_numbers read_valid sample_engine sample_self)
  = Ok {| validation_status := true;
          message := "Drift detected";
          drift_report_file_path := "artifact/drift_report/report.json" |}.
Proof. reflexivity. Qed.

(** A share of 0 and no count, under the default threshold. *)
Example scenario_zero_share_no_count :
  parse_evidently_metrics_to_profile_like no_text_numbers
    (report_of [drifted_columns_metric [("share", VInt 0)] []]) None
  = Ok (matched_summary VNone 0 false 0 0.5).
Proof. reflexivity. Qed.

(** Two valid tables and an engine whose report has no drifted-columns
    record: the run ends with the wrapped [KeyError]. *)
Example scenario_report_without_record :
  outcome (initiate_data_validation no_text_numbers read_valid
             (fun _ _ => Ok plain_report) sample_self)
  = Raise (PredictiveAnalyticsException
             (PredictiveAnalyticsException (KeyError "drift_share_threshold"))).
Proof. reflexivity. Qed.

(** * Further properties of the code *)

(** ** The scanning loop *)

(** X1. The loop stops at the first record that passes its test: the
    records after it are never looked at, whatever they are. *)
Theorem first_match_wins conv ref pre m post :
  Forall (fun x => is_drifted_columns_metric x = Ok false) pre ->
  is_drifted_columns_metric m = Ok true ->
  find_drifted_metric (pre ++ m :: post) = Ok (Some m) /\
  forall post',
    parse_evidently_metrics_to_profile_like conv (report_of (pre ++ m :: post)) ref
    = parse_evidently_metrics_to_profile_like conv (report_of (pre ++ m :: post')) ref.
Proof.
  intros Hpre Hm.
  assert (Hfind : forall tl, find_drifted_metric (pre ++ m :: tl) = Ok (Some m)).
  { intros tl. induction Hpre as [|x pre Hx Hpre IH]; simpl; unfold_binds.
    - rewrite Hm. reflexivity.
    - rewrite Hx. exact IH. }
  split; [apply Hfind|].
  intros post'. unfold parse_evidently_metrics_to_profile_like, report_of.
  unfold_binds. cbn [get dict_lookup String.eqb Ascii.eqb Bool.eqb default iter].
  simpl get. simpl iter. cbv iota beta.
  rewrite (Hfind post), (Hfind post'). reflexivity.
Qed.

Lemma first_match_wins_witness :
  find_drifted_metric ([row_count_metric] ++ boundary_metric :: [VInt 7])
  = Ok (Some boundary_metric) /\
  forall post',
    parse_evidently_metrics_to_profile_like no_text_numbers
      (report_of ([row_count_metric] ++ boundary_metric :: [VInt 7])) None
    = parse_evidently_metrics_to_profile_like no_text_numbers
        (report_of ([row_count_metric] ++ boundary_metric :: post')) None.
Proof.
  apply (first_match_wins no_text_numbers None [row_count_metric]
           boundary_metric [VInt 7]).
  - repeat constructor.
  - reflexivity.
Defined.

(** X2. A record that is a dictionary, with a type tag and a name that
    are texts where present, passes the test exactly when the tag ends
    with the signature or the name contains it. *)
Theorem matching_rule d cfg ty name :
  default (VDict []) (dict_lookup "config" d) = VDict cfg ->
  default (VStr "") (dict_lookup "type" cfg) = VStr ty ->
  default (VStr "") (dict_lookup "metric_name" d) = VStr name ->
  exists hit,
    is_drifted_columns_metric (VDict d) = Ok hit /\
    (hit = true <->
     (exists p, ty = (p ++ signature)%string) \/
     (exists p q, name = (p ++ signature ++ q)%string)).
Proof.
  intros Hcfg Hty Hname.
  unfold is_drifted_columns_metric, get. unfold_binds.
  rewrite Hcfg, Hty. cbn [endswith]. rewrite Hname. cbn [contains].
  pose proof (str_endswith_spec ty signature) as Hend.
  pose proof (str_contains_spec signature name) as Hsub.
  destruct (str_endswith ty signature).
  - exists true. split; [reflexivity|]. split; [|reflexivity].
    intros _. left. apply Hend. reflexivity.
  - exists (str_contains signature name). split; [reflexivity|].
    rewrite Hsub. split; [auto|].
    intros [H|H]; [apply Hend in H; discriminate|exact H].
Qed.

Lemma matching_rule_witness :
  exists hit,
    is_drifted_columns_metric
      (VDict [("metric_name", VStr "DriftedColumnsCount(drift_share=0.5)")])
    = Ok hit /\
    (hit = true <->
     (exists p, "" = (p ++ signature)%string) \/
     (exists p q, "DriftedColumnsCount(drift_share=0.5)"
                  = (p ++ signature ++ q)%string)).
Proof.
  apply (matching_rule [("metric_name", VStr "DriftedColumnsCount(drift_share=0.5)")]
           [] "" "DriftedColumnsCount(drift_share=0.5)"); reflexivity.
Defined.

(** X3. A record that is not a dictionary, met before any record that
    passes the test, makes the normaliser raise [AttributeError]. *)
Theorem non_dictionary_record_raises conv ref pre bad post :
  Forall (fun x => is_drifted_columns_metric x = Ok false) pre ->
  (forall d, bad <> VDict d) ->
  parse_evidently_metrics_to_profile_like conv (report_of (pre ++ bad :: post)) ref
  = Raise AttributeError.
Proof.
  intros Hpre Hbad.
  assert (Hraise : is_drifted_columns_metric bad = Raise AttributeError).
  { destruct bad; try reflexivity. destruct (Hbad d). reflexivity. }
  assert (Hfind : find_drifted_metric (pre ++ bad :: post) = Raise AttributeError).
  { induction Hpre as [|x pre Hx Hpre IH]; simpl; unfold_binds.
    - rewrite Hraise. reflexivity.
    - rewrite Hx. exact IH. }
  apply parse_scan_raises. unfold drifted_metric_of, metrics_of, report_of.
  unfold_binds. simpl get. simpl iter. cbv iota beta. exact Hfind.
Qed.

Lemma non_dictionary_record_raises_witness :
  parse_evidently_metrics_to_profile_like no_text_numbers
    (report_of ([row_count_metric] ++ VStr "DriftedColumnsCount" :: [boundary_metric]))
    None
  = Raise AttributeError.
Proof.
  apply (non_dictionary_record_raises no_text_numbers None [row_count_metric]
           (VStr "DriftedColumnsCount") [boundary_metric]).
  - repeat constructor.
  - intros d. discriminate.
Defined.

(** ** The summary of a record that was found *)

Lemma numeric_conversions conv count share configured :
  integer_or_none count -> float_or_none share -> float_or_none configured ->
  (if is_none count then Ok 0 else to_int conv count) = Ok (int_or_zero count) /\
  (if is_none share then Ok 0%float else to_float conv share)
  = Ok (float_or 0 share) /\
  to_float conv (effective_threshold configured) = Ok (float_or 0.5 configured).
Proof.
  intros [->|[z ->]] [->|[f ->]] [->|[g ->]]; repeat split.
Qed.

(** X4. With a reference table, a record whose count is an integer and
    whose share and threshold are floats, each possibly absent, always
    gets its summary: [n_features] is the table's column count, a
    missing count reads 0, a missing share reads 0.0 and gives no
    drift, and a missing threshold reads 0.5. *)
Theorem summary_with_reference conv report df m count share configured :
  drifted_metric_of report = Ok (Some m) ->
  value_field m "count" = Ok count ->
  value_field m "share" = Ok share ->
  config_field m "drift_share" = Ok configured ->
  integer_or_none count -> float_or_none share -> float_or_none configured ->
  parse_evidently_metrics_to_profile_like conv report (Some df)
  = Ok (numeric_summary (VInt (Z.of_nat (length (columns df))))
          count share configured).
Proof.
  intros Hm Hc Hs Hcfg Hcount Hshare Hthr.
  destruct (numeric_conversions conv count share configured Hcount Hshare Hthr)
    as (Hn & Hf & Ht).
  apply (parse_matched conv report (Some df) m _ Hm).
  exists count, share, configured, (VInt (shape1 df)),
    (int_or_zero count), (float_or 0 share), (float_or 0.5 configured).
  repeat split; assumption.
Qed.

Lemma summary_with_reference_witness :
  parse_evidently_metrics_to_profile_like no_text_numbers missing_count_report
    (Some three_columns)
  = Ok (numeric_summary (VInt (Z.of_nat (length (columns three_columns))))
          VNone (VFloat 0.5) VNone).
Proof.
  apply (summary_with_reference no_text_numbers missing_count_report three_columns
           missing_count_metric VNone (VFloat 0.5) VNone);
    try reflexivity; try (left; reflexivity).
  right. exists 0.5%float. reflexivity.
Defined.

(** X5. Without a reference table, a share that is absent or zero
    leaves [n_features] unknown: nothing is divided, and the summary
    is returned with [n_features = None], also when the count is
    absent. *)
Theorem summary_without_reference_zero_share conv report m count share configured :
  drifted_metric_of report = Ok (Some m) ->
  value_field m "count" = Ok count ->
  value_field m "share" = Ok share ->
  config_field m "drift_share" = Ok configured ->
  integer_or_none count -> float_or_none share -> float_or_none configured ->
  truthy share = false ->
  parse_evidently_metrics_to_profile_like conv report None
  = Ok (numeric_summary VNone count share configured).
Proof.
  intros Hm Hc Hs Hcfg Hcount Hshare Hthr Hfalsy.
  destruct (numeric_conversions conv count share configured Hcount Hshare Hthr)
    as (Hn & Hf & Ht).
  apply (parse_matched conv report None m _ Hm).
  exists count, share, configured, VNone,
    (int_or_zero count), (float_or 0 share), (float_or 0.5 configured).
  repeat split; try assumption.
  unfold inferred_n_features. rewrite Hfalsy. reflexivity.
Qed.

Lemma summary_without_reference_zero_share_witness :
  parse_evidently_metrics_to_profile_like no_text_numbers
    (report_of [drifted_columns_metric [("share", VFloat 0)] []]) None
  = Ok (numeric_summary VNone VNone (VFloat 0) VNone).
Proof.
  apply (summary_without_reference_zero_share no_text_numbers
           (report_of [drifted_columns_metric [("share", VFloat 0)] []])
           (drifted_columns_metric [("share", VFloat 0)] [])
           VNone (VFloat 0) VNone);
    try reflexivity; try (left; reflexivity).
  right. exists 0%float. reflexivity.
Defined.

(** A float that differs from itself is a NaN, and nothing is [>=]
    than anything else against it. *)
Lemma float_ge_nan (f t : float) :
  PrimFloat.eqb f f = false -> float_ge f t = false.
Proof.
  unfold float_ge. rewrite FloatAxioms.eqb_spec, leb_spec.
  unfold SFeqb, SFleb.
  destruct (Prim2SF f) as [s|s| |s m e]; simpl.
  - discriminate.
  - destruct s; discriminate.
  - intros _. destruct (Prim2SF t); reflexivity.
  - rewrite Z.compare_refl.
    change (Pos.compare_cont Eq m m) with (m ?= m)%positive.
    rewrite Pos.compare_refl. destruct s; discriminate.
Qed.

(** X6. A share that is a NaN never gives drift, whatever the
    threshold. *)
Theorem nan_share_is_no_drift conv report ref m f out :
  drifted_metric_of report = Ok (Some m) ->
  value_field m "share" = Ok (VFloat f) ->
  PrimFloat.eqb f f = false ->
  parse_evidently_metrics_to_profile_like conv report ref = Ok out ->
  field out "dataset_drift" = Some (VBool false).
Proof.
  intros Hm Hshare Hnan Hp.
  apply (parse_matched conv report ref m out Hm) in Hp.
  destruct Hp as (count & share' & configured & nf & n & s & t
                  & _ & Hs' & _ & _ & _ & Hf & _ & ->).
  rewrite Hshare in Hs'. injection Hs' as <-.
  simpl in Hf. injection Hf as <-. simpl.
  rewrite (float_ge_nan f t Hnan). reflexivity.
Qed.

Lemma nan_share_is_no_drift_witness :
  field (matched_summary (VInt 3) 3 false nan 0.5) "dataset_drift"
  = Some (VBool false).
Proof.
  apply (nan_share_is_no_drift no_text_numbers
           (report_of [drifted_columns_metric
                         [("count", VInt 3); ("share", VFloat nan)] []])
           (Some three_columns)
           (drifted_columns_metric [("count", VInt 3); ("share", VFloat nan)] [])
           nan); reflexivity.
Defined.

(** X7. Without a reference table and with a share that is known and
    not zero, [n_features] is an integer nearest to the float
    [count / share]. *)
Theorem n_features_is_nearest_integer conv report m count share out :
  drifted_metric_of report = Ok (Some m) ->
  value_field m "count" = Ok count ->
  value_field m "share" = Ok share ->
  truthy share = true ->
  parse_evidently_metrics_to_profile_like conv report None = Ok out ->
  exists quotient n,
    truediv count share = Ok quotient /\
    round_float quotient = Ok n /\
    field out "n_features" = Some (VInt n) /\
    forall s mant e,
      Prim2SF quotient = S754_finite s mant e ->
      (0 <= e -> n = with_sign s (Z.pos mant * 2 ^ e)) /\
      (e < 0 ->
       2 * Z.abs (n * 2 ^ (- e) - with_sign s (Z.pos mant)) <= 2 ^ (- e)).
Proof.
  intros Hm Hc Hs Htruthy Hp.
  destruct (n_features_from_share conv report m count share out
              Hm Hc Hs Htruthy Hp) as (q & n & Hq & Hn & Hfield).
  exists q, n. repeat split; try assumption;
    destruct (round_float_nearest q s mant e n H Hn) as [Hint Hfrac]; auto.
Qed.

Lemma n_features_is_nearest_integer_witness :
  exists quotient n,
    truediv (VInt 3) (VFloat 0.5) = Ok quotient /\
    round_float quotient = Ok n /\
    field (matched_summary (VInt 6) 3 true 0.5 0.5) "n_features"
    = Some (VInt n) /\
    forall s mant e,
      Prim2SF quotient = S754_finite s mant e ->
      (0 <= e -> n = with_sign s (Z.pos mant * 2 ^ e)) /\
      (e < 0 ->
       2 * Z.abs (n * 2 ^ (- e) - with_sign s (Z.pos mant)) <= 2 ^ (- e)).
Proof.
  apply (n_features_is_nearest_integer no_text_numbers boundary_report
           boundary_metric (VInt 3) (VFloat 0.5)); reflexivity.
Defined.

(** ** Drift detection *)

Lemma makedirs_run (path : string) :
  path <> "" -> makedirs path = Run [MakeDirs path] (Ok tt).
Proof.
  intros Hne. unfold makedirs, emit, lift. unfold mbind, M_bind. cbn [outcome trace].
  apply String.eqb_neq in Hne. rewrite Hne. reflexivity.
Qed.

(** X8. When the engine's report has a drifted-columns record and the
    normaliser returns, drift detection saves the report as JSON,
    writes the summary as YAML at the path with [".json"] replaced,
    and returns the very [dataset_drift] it wrote. *)
Theorem detect_dataset_drift_persists_its_answer conv run_report self r c report m out :
  run_report r c = Ok report ->
  drifted_metric_of report = Ok (Some m) ->
  parse_evidently_metrics_to_profile_like conv report (Some r) = Ok out ->
  dirname (config_drift_report_file_path (data_validation_config self)) <> "" ->
  dirname (yaml_path_of (config_drift_report_file_path (data_validation_config self)))
  <> "" ->
  exists n_features n drift s t raw_metrics,
    out = matched_summary n_features n drift s t /\
    get report "metrics" (VList []) = Ok raw_metrics /\
    detect_dataset_drift conv run_report self r c
    = Run [RunReport r c;
           MakeDirs (dirname (config_drift_report_file_path
                                (data_validation_config self)));
           SaveJson (config_drift_report_file_path (data_validation_config self))
                    report;
           LoadJson (config_drift_report_file_path (data_validation_config self));
           MakeDirs (dirname (yaml_path_of (config_drift_report_file_path
                                              (data_validation_config self))));
           WriteYaml (yaml_path_of (config_drift_report_file_path
                                      (data_validation_config self)))
                     (profile_like n_features n drift s t raw_metrics);
           LogDriftSummary (VInt n) n_features (VFloat s) (VFloat t) (VBool drift)]
          (Ok drift).
Proof.
  intros Hrun Hm Hp Hdir Hydir.
  pose proof Hp as Hshape.
  apply (parse_matched conv report (Some r) m out Hm) in Hshape.
  destruct Hshape as (count & share & configured & nf & n & s & t
                      & _ & _ & _ & _ & _ & _ & _ & ->).
  assert (exists raw, get report "metrics" (VList []) = Ok raw) as [raw Hraw].
  { unfold drifted_metric_of, metrics_of in Hm. unfold_binds.
    destruct (get report "metrics" (VList [])) as [raw|]; [eauto|discriminate]. }
  exists nf, n, (if is_none share then false else float_ge s t), s, t, raw.
  split; [reflexivity|]. split; [exact Hraw|].
  unfold detect_dataset_drift.
  apply wrapped_ok.
  apply bind_emit. eapply bind_lift_ok; [exact Hrun|]. cbv beta zeta.
  eapply bind_makedirs; [exact Hdir|]. do 2 apply bind_emit.
  eapply bind_lift_ok; [exact Hp|]. cbv beta.
  do 5 (eapply bind_lift_ok; [reflexivity|]; cbv beta).
  eapply bind_lift_ok; [exact Hraw|]. cbv beta.
  eapply bind_makedirs; [exact Hydir|].
  unfold write_yaml_file. do 2 apply bind_emit.
  reflexivity.
Qed.

Lemma detect_dataset_drift_persists_its_answer_witness :
  exists n_features n drift s t raw_metrics,
    matched_summary (VInt 3) 3 true 0.5 0.5
    = matched_summary n_features n drift s t /\
    get boundary_report "metrics" (VList []) = Ok raw_metrics /\
    detect_dataset_drift no_text_numbers sample_engine sample_self
      three_columns three_columns
    = Run [RunReport three_columns three_columns;
           MakeDirs (dirname (config_drift_report_file_path
                                (data_validation_config sample_self)));
           SaveJson (config_drift_report_file_path
                       (data_validation_config sample_self))
                    boundary_report;
           LoadJson (config_drift_report_file_path
                       (data_validation_config sample_self));
           MakeDirs (dirname (yaml_path_of (config_drift_report_file_path
                                              (data_validation_config sample_self))));
           WriteYaml (yaml_path_of (config_drift_report_file_path
                                      (data_validation_config sample_self)))
                     (profile_like n_features n drift s t raw_metrics);
           LogDriftSummary (VInt n) n_features (VFloat s) (VFloat t) (VBool drift)]
          (Ok drift).
Proof.
  apply (detect_dataset_drift_persists_its_answer no_text_numbers sample_engine
           sample_self three_columns three_columns boundary_report boundary_metric);
    try reflexivity; vm_compute; discriminate.
Defined.

(** X9. When the engine fails, drift detection raises its exception
    wrapped once, and nothing has been written. *)
Theorem detect_dataset_drift_engine_failure conv run_report self r c e :
  run_report r c = Raise e ->
  detect_dataset_drift conv run_report self r c
  = Run [RunReport r c] (Raise (PredictiveAnalyticsException e)).
Proof.
  intros Hrun. unfold detect_dataset_drift.
  apply wrapped_raise. apply bind_emit.
  apply bind_lift_raise. exact Hrun.
Qed.

Lemma detect_dataset_drift_engine_failure_witness :
  detect_dataset_drift no_text_numbers (fun _ _ => Raise (OSError "engine"))
    sample_self three_columns three_columns
  = Run [RunReport three_columns three_columns]
        (Raise (PredictiveAnalyticsException (OSError "engine"))).
Proof.
  apply (detect_dataset_drift_engine_failure no_text_numbers
           (fun _ _ => Raise (OSError "engine")) sample_self
           three_columns three_columns (OSError "engine")).
  reflexivity.
Defined.

(** X10. When the engine's report has no drifted-columns record, drift
    detection has saved the report as JSON, then raises a wrapped
    [KeyError] for the threshold, and writes no YAML. *)
Theorem detect_dataset_drift_without_record conv run_report self r c report :
  run_report r c = Ok report ->
  drifted_metric_of report = Ok None ->
  dirname (config_drift_report_file_path (data_validation_config self)) <> "" ->
  detect_dataset_drift conv run_report self r c
  = Run [RunReport r c;
         MakeDirs (dirname (config_drift_report_file_path
                              (data_validation_config self)));
         SaveJson (config_drift_report_file_path (data_validation_config self))
                  report;
         LoadJson (config_drift_report_file_path (data_validation_config self))]
        (Raise (PredictiveAnalyticsException (KeyError "drift_share_threshold"))).
Proof.
  intros Hrun Hnone Hdir.
  unfold detect_dataset_drift.
  apply wrapped_raise.
  apply bind_emit. eapply bind_lift_ok; [exact Hrun|]. cbv beta zeta.
  eapply bind_makedirs; [exact Hdir|]. do 2 apply bind_emit.
  eapply bind_lift_ok; [exact (parse_no_match conv report (Some r) Hnone)|].
  cbv beta.
  do 4 (eapply bind_lift_ok; [reflexivity|]; cbv beta).
  eapply bind_lift_raise. reflexivity.
Qed.

Lemma detect_dataset_drift_without_record_witness :
  detect_dataset_drift no_text_numbers (fun _ _ => Ok plain_report)
    sample_self three_columns three_columns
  = Run [RunReport three_columns three_columns;
         MakeDirs (dirname (config_drift_report_file_path
                              (data_validation_config sample_self)));
         SaveJson (config_drift_report_file_path
                     (data_validation_config sample_self))
                  plain_report;
         LoadJson (config_drift_report_file_path
                     (data_validation_config sample_self))]
        (Raise (PredictiveAnalyticsException (KeyError "drift_share_threshold"))).
Proof.
  apply (detect_dataset_drift_without_record no_text_numbers
           (fun _ _ => Ok plain_report) sample_self three_columns three_columns
           plain_report); try reflexivity.
  vm_compute. discriminate.
Defined.

(** X11. A report path without a directory part makes drift detection
    fail when it creates the directory: the engine has run, and
    nothing is saved. *)
Theorem detect_dataset_drift_bare_file_name conv run_report self r c report :
  run_report r c = Ok report ->
  dirname (config_drift_report_file_path (data_validation_config self)) = "" ->
  detect_dataset_drift conv run_report self r c
  = Run [RunReport r c; MakeDirs ""]
        (Raise (PredictiveAnalyticsException (OSError "makedirs"))).
Proof.
  intros Hrun Hdir.
  unfold detect_dataset_drift.
  apply wrapped_raise.
  apply bind_emit. eapply bind_lift_ok; [exact Hrun|]. cbv beta zeta.
  apply bind_makedirs_empty. exact Hdir.
Qed.

Lemma detect_dataset_drift_bare_file_name_witness :
  detect_dataset_drift no_text_numbers sample_engine
    {| data_ingestion_artifact := data_ingestion_artifact sample_self;
       data_validation_config := {| config_drift_report_file_path := "report.json" |};
       schema_config := schema_config sample_self |}
    three_columns three_columns
  = Run [RunReport three_columns three_columns; MakeDirs ""]
        (Raise (PredictiveAnalyticsException (OSError "makedirs"))).
Proof.
  apply (detect_dataset_drift_bare_file_name no_text_numbers sample_engine
           {| data_ingestion_artifact := data_ingestion_artifact sample_self;
              data_validation_config :=
                {| config_drift_report_file_path := "report.json" |};
              schema_config := schema_config sample_self |}
           three_columns three_columns boundary_report); reflexivity.
Defined.

(** ** Where the summary is written *)

Lemma str_contains_cons_false (needle : string) (c : ascii) (s : string) :
  str_contains needle (String c s) = false ->
  String.prefix needle (String c s) = false /\ str_contains needle s = false.
Proof. cbn [str_contains]. apply orb_false_iff. Qed.

Lemma replace_absent (old new s : string) :
  str_contains old s = false -> replace_from old new O s = s.
Proof.
  induction s as [|c s IH]; [reflexivity|].
  intros H. apply str_contains_cons_false in H as [Hp Hs].
  cbn [replace_from]. rewrite Hp, (IH Hs). reflexivity.
Qed.

(** No occurrence of [".json"] starts inside a text free of it and
    ends in a [".json"] appended to it. *)
Lemma json_suffix_not_early (c : ascii) (stem : string) :
  str_contains ".json" (String c stem) = false ->
  String.prefix ".json" (String c stem ++ ".json") = false.
Proof.
  intros Hfree.
  destruct (String.prefix ".json" (String c stem ++ ".json")) eqn:Hp;
    [|reflexivity].
  apply prefix_spec in Hp as [q Hq].
  apply str_contains_cons_false in Hfree as [Hfree _].
  destruct stem as [|c2 [|c3 [|c4 [|c5 rest]]]]; norm_append;
    try congruence.
  assert (Hstem : String c (String c2 (String c3 (String c4 (String c5 rest))))
                  = (".json" ++ rest)%string).
  { norm_append. injection Hq as -> -> -> -> -> _. reflexivity. }
  rewrite Hstem in Hfree.
  assert (String.prefix ".json" (".json" ++ rest) = true) as Htrue
    by (apply prefix_spec; eauto).
  congruence.
Qed.

(** X12. A report path that contains no [".json"] is its own YAML
    path: the summary is written over the raw report. *)
Theorem yaml_path_without_json_extension (json_path : string) :
  str_contains ".json" json_path = false ->
  yaml_path_of json_path = json_path.
Proof. apply replace_absent. Qed.

Lemma yaml_path_without_json_extension_witness :
  yaml_path_of "artifact/drift_report/report.yaml"
  = "artifact/drift_report/report.yaml".
Proof.
  apply (yaml_path_without_json_extension "artifact/drift_report/report.yaml").
  reflexivity.
Defined.

(** X13. A report path that ends in its only [".json"] gets the YAML
    path with that ending turned into [".yaml"]. *)
Theorem yaml_path_of_json_file (stem : string) :
  str_contains ".json" stem = false ->
  yaml_path_of (stem ++ ".json") = (stem ++ ".yaml")%string.
Proof.
  unfold yaml_path_of, str_replace.
  induction stem as [|c stem IH]; [reflexivity|].
  intros Hfree. pose proof (json_suffix_not_early c stem Hfree) as Hp.
  apply str_contains_cons_false in Hfree as [_ Hfree].
  norm_append.
  cbn [replace_from]. rewrite Hp, (IH Hfree). reflexivity.
Qed.

Lemma yaml_path_of_json_file_witness :
  yaml_path_of ("artifact/drift_report/report" ++ ".json")
  = ("artifact/drift_report/report" ++ ".yaml")%string.
Proof.
  apply (yaml_path_of_json_file "artifact/drift_report/report"). reflexivity.
Defined.

(** ** The orchestrator's failures, and what its status means *)

(** X14. When either table fails to load, the orchestrator raises the
    reader's exception wrapped twice (by [read_data], then by itself);
    no check is run and nothing but the first line is logged. *)
Theorem load_failure_aborts conv read_csv run_report self e :
  read_csv (trained_file_path (data_ingestion_artifact self)) = Raise e \/
  (exists train,
      read_csv (trained_file_path (data_ingestion_artifact self)) = Ok train /\
      read_csv (test_file_path (data_ingestion_artifact self)) = Raise e) ->
  initiate_data_validation conv read_csv run_report self
  = Run [LogStarting]
        (Raise (PredictiveAnalyticsException (PredictiveAnalyticsException e))).
Proof.
  unfold initiate_data_validation, read_data, wrapped at 1, lift.
  unfold mbind, M_bind. cbn [outcome trace wrapped emit].
  intros [Htrain|(train & Htrain & Htest)]; rewrite Htrain; cbn [outcome trace].
  - reflexivity.
  - rewrite Htest. reflexivity.
Qed.

Lemma load_failure_aborts_witness :
  initiate_data_validation no_text_numbers
    (fun path => if String.eqb path "artifact/test.csv"
                 then Raise (OSError "read_csv") else Ok three_columns)
    sample_engine sample_self
  = Run [LogStarting]
        (Raise (PredictiveAnalyticsException
                  (PredictiveAnalyticsException (OSError "read_csv")))).
Proof.
  apply (load_failure_aborts no_text_numbers
           (fun path => if String.eqb path "artifact/test.csv"
                        then Raise (OSError "read_csv") else Ok three_columns)
           sample_engine sample_self (OSError "read_csv")).
  right. exists three_columns. split; reflexivity.
Defined.

#[local] Opaque run_schema_checks detect_dataset_drift.

(** X15. When both tables pass the schema checks and drift detection
    raises, the orchestrator returns no artifact: it raises the
    exception wrapped once more, having logged the checks and whatever
    drift detection did. *)
Theorem drift_failure_gives_no_artifact conv read_csv run_report self train test e :
  read_csv (trained_file_path (data_ingestion_artifact self)) = Ok train ->
  read_csv (test_file_path (data_ingestion_artifact self)) = Ok test ->
  schema_errors self train test = [] ->
  outcome (detect_dataset_drift conv run_report self train test) = Raise e ->
  initiate_data_validation conv read_csv run_report self
  = Run (LogStarting :: checks_log self train test
           ++ trace (detect_dataset_drift conv run_report self train test))
        (Raise (PredictiveAnalyticsException e)).
Proof.
  intros Htrain Htest Herrs Hdrift.
  rewrite (initiate_data_validation_run conv read_csv run_report self train test
             Htrain Htest).
  rewrite Herrs. cbv zeta. rewrite Hdrift. reflexivity.
Qed.

#[local] Transparent run_schema_checks detect_dataset_drift.

Lemma drift_failure_gives_no_artifact_witness :
  initiate_data_validation no_text_numbers read_valid
    (fun _ _ => Raise (OSError "engine")) sample_self
  = Run (LogStarting :: checks_log sample_self three_columns three_columns
           ++ trace (detect_dataset_drift no_text_numbers
                       (fun _ _ => Raise (OSError "engine")) sample_self
                       three_columns three_columns))
        (Raise (PredictiveAnalyticsException
                  (PredictiveAnalyticsException (OSError "engine")))).
Proof.
  apply (drift_failure_gives_no_artifact no_text_numbers read_valid
           (fun _ _ => Raise (OSError "engine")) sample_self
           three_columns three_columns
           (PredictiveAnalyticsException (OSError "engine"))); reflexivity.
Defined.

Lemma has_required_true self T :
  has_required self T = true <->
  forall c, c ∈ numerical_columns (schema_config self) \/
            c ∈ categorical_columns (schema_config self) ->
            c ∈ columns T.
Proof.
  unfold has_required. rewrite negb_true_iff, orb_false_iff, !nonempty_false.
  unfold missing_numerical, missing_categorical. split.
  - intros [Hn Hc] c [Hin|Hin].
    + destruct (decide (c ∈ columns T)) as [|Hout]; [assumption|].
      assert (c ∈ missing_from T (numerical_columns (schema_config self)))
        as Hm by (apply missing_from_spec; auto).
      rewrite Hn in Hm. apply elem_of_nil in Hm. destruct Hm.
    + destruct (decide (c ∈ columns T)) as [|Hout]; [assumption|].
      assert (c ∈ missing_from T (categorical_columns (schema_config self)))
        as Hm by (apply missing_from_spec; auto).
      rewrite Hc in Hm. apply elem_of_nil in Hm. destruct Hm.
  - intros Hall. split; apply elem_of_nil_inv; intros c Hm;
      apply missing_from_spec in Hm as [Hin Hout]; apply Hout, Hall; auto.
Qed.

(** X16. The column-existence check only grows with the table's
    columns: if it passes on a table, it passes on every table that
    has at least the same column names, in any order. *)
Theorem is_column_exist_monotone self T T' :
  (forall c, c ∈ columns T -> c ∈ columns T') ->
  outcome (is_column_exist self T) = Ok true ->
  outcome (is_column_exist self T') = Ok true.
Proof.
  rewrite !is_column_exist_run. cbn [outcome].
  intros Hsub [= HT]. f_equal.
  apply has_required_true. intros c Hc. apply Hsub.
  apply (proj1 (has_required_true self T) HT c Hc).
Qed.

Lemma is_column_exist_monotone_witness :
  outcome (is_column_exist sample_self
             {| columns := ["case_status"; "extra"; "prevailing_wage"; "continent"];
                rows := [] |})
  = Ok true.
Proof.
  apply (is_column_exist_monotone sample_self three_columns
           {| columns := ["case_status"; "extra"; "prevailing_wage"; "continent"];
              rows := [] |}).
  - intros c Hc. apply list_elem_of_In in Hc. apply list_elem_of_In.
    simpl in *. intuition.
  - reflexivity.
Defined.

(** X17. Whenever the orchestrator returns an artifact, its
    [validation_status] is [True] exactly when both tables have as
    many columns as the schema lists and both contain every required
    numerical and categorical column. *)
Theorem validation_status_meaning conv read_csv run_report self train test a :
  read_csv (trained_file_path (data_ingestion_artifact self)) = Ok train ->
  read_csv (test_file_path (data_ingestion_artifact self)) = Ok test ->
  outcome (initiate_data_validation conv read_csv run_report self) = Ok a ->
  (validation_status a = true <->
   length (columns train) = length (schema_columns (schema_config self)) /\
   length (columns test) = length (schema_columns (schema_config self)) /\
   forall c, c ∈ numerical_columns (schema_config self) \/
             c ∈ categorical_columns (schema_config self) ->
             c ∈ columns train /\ c ∈ columns test).
Proof.
  intros Htrain Htest.
  rewrite (initiate_data_validation_run conv read_csv run_report self train test
             Htrain Htest).
  pose proof (schema_errors_nil self train test) as Hnil.
  assert (Hcount : forall T, count_matches self T = true <->
            length (columns T) = length (schema_columns (schema_config self))).
  { intros T. unfold count_matches. rewrite Nat.eqb_eq. split; congruence. }
  assert (Hmeaning :
    schema_errors self train test = [] <->
    length (columns train) = length (schema_columns (schema_config self)) /\
    length (columns test) = length (schema_columns (schema_config self)) /\
    forall c, c ∈ numerical_columns (schema_config self) \/
              c ∈ categorical_columns (schema_config self) ->
              c ∈ columns train /\ c ∈ columns test).
  { rewrite Hnil, !Hcount, !has_required_true. split.
    - intros (H1 & H2 & H3 & H4). repeat split; auto.
    - intros (H1 & H2 & H3). repeat split; auto; intros c Hc; apply H3; auto. }
  destruct (schema_errors self train test) as [|msg errs].
  - cbv zeta.
    destruct (outcome (detect_dataset_drift conv run_report self train test));
      cbn [outcome]; [|intros ?; discriminate].
    intros [= <-]. cbn [validation_status artifact_of]. rewrite <- Hmeaning. tauto.
  - cbn [outcome]. intros [= <-]. cbn [validation_status artifact_of].
    rewrite <- Hmeaning. split; intros ?; discriminate.
Qed.

Lemma validation_status_meaning_witness :
  validation_status (artifact_of sample_self false false
                       (schema_errors sample_self three_columns two_columns))
  = true <->
  length (columns three_columns)
  = length (schema_columns (schema_config sample_self)) /\
  length (columns two_columns)
  = length (schema_columns (schema_config sample_self)) /\
  forall c, c ∈ numerical_columns (schema_config sample_self) \/
            c ∈ categorical_columns (schema_config sample_self) ->
            c ∈ columns three_columns /\ c ∈ columns two_columns.
Proof.
  apply (validation_status_meaning no_text_numbers read_short_test sample_engine
           sample_self three_columns two_columns); reflexivity.
Defined.

(** ** The shared database client *)

Section SharedClient.
Import MongoDB.
Context {Client Database : Type}.
Variable key : string.
Variable mongo_client : string -> result Client.
Variable database_of : Client -> string -> result Database.

Abbreviation construct := (__init__ Client Database key mongo_client database_of).

(** X18. Once the class attribute holds a client, a construction keeps
    it, neither reads the environment nor connects, and gives every
    instance it returns that very client: the environment no longer
    matters. *)
Theorem existing_client_is_reused (environ environ' : gmap string string)
    (c : Client) (name : string) :
  class_client (construct environ (Some c) name) = Some c /\
  (forall e, e ∈ events (construct environ (Some c) name) -> e = LogConnected) /\
  (forall inst : MongoDBClient Client Database,
      constructed (construct environ (Some c) name) = Returned inst ->
      client inst = c /\ database_name inst = name) /\
  construct environ (Some c) name = construct environ' (Some c) name.
Proof.
  unfold __init__, attach.
  destruct (database_of c name) as [db|e]; cbn.
  - repeat split.
    + intros e He. apply list_elem_of_singleton in He. exact He.
    + injection H as <-. reflexivity.
    + injection H as <-. reflexivity.
  - repeat split; try discriminate.
    intros e0 He. apply elem_of_nil in He. destruct He.
Qed.

(** X19. With no client yet and the variable unset or empty, a
    construction raises the not-set message wrapped twice, without
    connecting, and leaves the class attribute empty. *)
Theorem missing_url_leaves_no_client (environ : gmap string string) (name : string) :
  environ !! key = None \/ environ !! key = Some "" ->
  construct environ None name
  = {| class_client := None;
       events := [ReadEnviron key];
       constructed :=
         Raised (Wrapped (Wrapped (Message (not_set_message key)))) |}.
Proof.
  unfold __init__. intros [->| ->]; reflexivity.
Qed.

(** X20. With no client yet, a construction that connects and then
    fails to select the database raises, and still leaves the new
    client in the class attribute. *)
Theorem failed_database_keeps_client (environ : gmap string string)
    (url name : string) (c : Client) (e : exn) :
  environ !! key = Some url ->
  url <> "" ->
  mongo_client url = Ok c ->
  database_of c name = Raise e ->
  construct environ None name
  = {| class_client := Some c;
       events := [ReadEnviron key; Connect url];
       constructed := Raised (Wrapped (Driver e)) |}.
Proof.
  intros Henv Hurl Hc Hdb. unfold __init__, attach. rewrite Henv.
  destruct url as [|a url]; [congruence|].
  rewrite Hc, Hdb. reflexivity.
Qed.

(** X21. Whatever the class attribute held before, after a
    construction that returns an instance it holds that instance's
    client, and the construction connected at most once. *)
Theorem returned_instance_holds_class_client (environ : gmap string string)
    (current : option Client) (name : string) (inst : MongoDBClient Client Database) :
  constructed (construct environ current name) = Returned inst ->
  class_client (construct environ current name) = Some (client inst) /\
  database_name inst = name /\
  (length (List.filter is_connect (events (construct environ current name)))
   <= 1)%nat.
Proof.
  unfold __init__, attach.
  destruct current as [c|].
  - destruct (database_of c name); cbn; [|discriminate].
    intros [= <-]. repeat split. cbn. lia.
  - destruct (environ !! key) as [[|a url]|]; cbn; try discriminate.
    destruct (mongo_client (String a url)) as [c|]; cbn; [|discriminate].
    destruct (database_of c name); cbn; [|discriminate].
    intros [= <-]. repeat split. cbn. lia.
Qed.
End SharedClient.

Lemma missing_url_leaves_no_client_witness :
  MongoDB.__init__ string (string * string) sample_key sample_mongo_client
    sample_database_of ∅ None "travel"
  = {| MongoDB.class_client := None;
       MongoDB.events := [MongoDB.ReadEnviron sample_key];
       MongoDB.constructed :=
         MongoDB.Raised
           (MongoDB.Wrapped
              (MongoDB.Wrapped
                 (MongoDB.Message (MongoDB.not_set_message sample_key)))) |}.
Proof.
  apply (missing_url_leaves_no_client sample_key sample_mongo_client
           sample_database_of ∅ "travel").
  left. apply lookup_empty.
Defined.

Lemma failed_database_keeps_client_witness :
  MongoDB.__init__ string (string * string) sample_key sample_mongo_client
    sample_database_of sample_environ None ""
  = {| MongoDB.class_client := Some "mongodb://localhost:27017";
       MongoDB.events := [MongoDB.ReadEnviron sample_key;
                          MongoDB.Connect "mongodb://localhost:27017"];
       MongoDB.constructed :=
         MongoDB.Raised (MongoDB.Wrapped (MongoDB.Driver ValueError)) |}.
Proof.
  apply (failed_database_keeps_client sample_key sample_mongo_client
           sample_database_of sample_environ "mongodb://localhost:27017" ""
           "mongodb://localhost:27017" ValueError).
  - apply lookup_singleton_eq.
  - discriminate.
  - reflexivity.
  - reflexivity.
Defined.

Lemma returned_instance_holds_class_client_witness :
  MongoDB.class_client
    (MongoDB.__init__ string (string * string) sample_key sample_mongo_client
       sample_database_of sample_environ None "travel")
  = Some (MongoDB.client
            {| MongoDB.client := "mongodb://localhost:27017";
               MongoDB.database := ("mongodb://localhost:27017", "travel");
               MongoDB.database_name := "travel" |}) /\
  MongoDB.database_name
    {| MongoDB.client := "mongodb://localhost:27017";
       MongoDB.database := ("mongodb://localhost:27017", "travel");
       MongoDB.database_name := "travel" |}
  = "travel" /\
  (length (List.filter is_connect
             (MongoDB.events
                (MongoDB.__init__ string (string * string) sample_key
                   sample_mongo_client sample_database_of sample_environ None
                   "travel"))) <= 1)%nat.
Proof.
  apply (returned_instance_holds_class_client sample_key sample_mongo_client
           sample_database_of sample_environ None "travel").
  vm_compute. reflexivity.
Defined.
